(** * pystreams: a shallow embedding of [src/streams/streams.py],
    [src/streams/collectors.py] and the older [src/streams.py].

    A Python iterator is modelled as a state machine ([cursor]): a state
    and a [next] function that yields an element and a new state, signals
    exhaustion ([StopIteration]) or raises.  A [for] loop over an iterator
    is the fuel-bounded [py_for]; running out of fuel means that the loop
    has not finished within that many pulls (infinite sources). *)

From Stdlib Require Import ZArith Znumtheory String List Lia.
From stdpp Require Import base gmap strings list.
Import ListNotations.
Open Scope Z_scope.

(** ** Python exceptions and results *)

Inductive exn : Type :=
| RuntimeError (msg : string)
| ValueError (msg : string)
| TypeError (msg : string).

(** The value of a Python call: it returns or raises. *)
Inductive res (X : Type) : Type :=
| Ok (x : X)
| Err (e : exn).
Arguments Ok {X} x.
Arguments Err {X} e.

(** ** Iterators *)

(** One call of [__next__]. *)
Inductive step (St T : Type) : Type :=
| Yield (x : T) (s : St)
| Stop
| Raise (e : exn).
Arguments Yield {St T} x s.
Arguments Stop {St T}.
Arguments Raise {St T} e.

Record cursor (T : Type) : Type := Cursor {
  cst : Type;
  cur : cst;
  cnext : cst -> step cst T
}.
Arguments Cursor {T cst} cur cnext.
Arguments cst {T} c.
Arguments cur {T} c.
Arguments cnext {T} c _.

(** How a [for] loop ended. *)
Inductive ending : Type :=
| Done
| Raised (e : exn)
| NoFuel.

(** [for x in it: body]; the body updates a world [B] and may raise.
    Each pull of the iterator costs one unit of fuel. *)
Fixpoint py_for {St T B : Type} (nxt : St -> step St T)
    (body : B -> T -> B * option exn) (fuel : nat) (s : St) (b : B)
    : ending * B * St :=
  match fuel with
  | O => (NoFuel, b, s)
  | S fuel' =>
      match nxt s with
      | Stop => (Done, b, s)
      | Raise e => (Raised e, b, s)
      | Yield x s' =>
          match body b x with
          | (b', None) => py_for nxt body fuel' s' b'
          | (b', Some e) => (Raised e, b', s')
          end
      end
  end.

(** ** Sources *)

(** [Stream.of( *values)], [Stream(list)]: the tuple or list iterator. *)
Definition of_list {T : Type} (xs : list T) : cursor T :=
  Cursor (cst := list T) xs
    (fun l => match l with [] => Stop | x :: l' => Yield x l' end).

(** [Stream.empty()]: [Stream(())]. *)
Definition stream_empty {T : Type} : cursor T := of_list [].

(** [Stream.iterate(seed, f)]:
<<
    def it():
        x = seed
        while True:
            yield x
            x = f(x)
>>
    The generator state is [None] before the first pull and [Some x]
    while suspended at [yield x]. *)
Definition iterate {T : Type} (seed : T) (f : T -> T) : cursor T :=
  Cursor (cst := option T) None
    (fun g => match g with
              | None => Yield seed (Some seed)
              | Some x => let x' := f x in Yield x' (Some x')
              end).

(** ** Intermediate stages *)

(** [Stream.map]: [Stream(map(mapper, self.it))]; the builtin [map]
    object holds the upstream iterator and nothing else. *)
Definition stream_map {T R : Type} (mapper : T -> R) (c : cursor T)
    : cursor R :=
  Cursor (cst := cst c) (cur c)
    (fun s => match cnext c s with
              | Yield x s' => Yield (mapper x) s'
              | Stop => Stop
              | Raise e => Raise e
              end).

(** [Stream.limit]:
<<
    def it():
        for _ in range(max_size):
            yield next(self.it)
>>
    The state is the number of iterations of [range(max_size)] left and
    the upstream state.  A [StopIteration] raised by [next(self.it)]
    inside the generator body is turned into
    [RuntimeError('generator raised StopIteration')] (PEP 479, the
    default since Python 3.7; the module uses [list[_T]], so 3.9+). *)
Definition pep479_msg : string := "generator raised StopIteration".

Definition limit {T : Type} (c : cursor T) (max_size : Z) : cursor T :=
  Cursor (cst := nat * cst c) (Z.to_nat max_size, cur c)
    (fun '(k, s) =>
       match k with
       | O => Stop
       | S k' =>
           match cnext c s with
           | Yield x s' => Yield x (k', s')
           | Stop => Raise (RuntimeError pep479_msg)
           | Raise e => Raise e
           end
       end).

(** ** Terminal operations *)

(** [Stream.to_list]: [list(self.it)]. *)
Definition to_list {T : Type} (c : cursor T) (fuel : nat)
    : ending * list T * cst c :=
  py_for (cnext c) (fun l x => (l ++ [x], None)) fuel (cur c) [].

(** ** Collectors ([streams.py], class [Collector]) *)

(** The three methods of a collector.  The accumulator object is mutated
    in place by [accumulator(result, value)] and the driver ignores its
    return value, so the method is modelled by the new contents of the
    accumulator object. *)
Record collector (T A R : Type) : Type := Collector {
  supplier : unit -> res A;
  accumulator : A -> T -> res A;
  finisher : A -> res R
}.
Arguments Collector {T A R} supplier accumulator finisher.
Arguments supplier {T A R} c _.
Arguments accumulator {T A R} c _ _.
Arguments finisher {T A R} c _.

(** The calls [collect] makes on the collector, in order. *)
Inductive event (T A : Type) : Type :=
| EvSupplier
| EvAccumulator (acc : A) (value : T)
| EvFinisher (acc : A).
Arguments EvSupplier {T A}.
Arguments EvAccumulator {T A} acc value.
Arguments EvFinisher {T A} acc.

(** [Stream.collect]:
<<
    def collect(self, collector):
        result = collector.supplier()
        for value in self.it:
            collector.accumulator(result, value)
        return collector.finisher(result)
>>
    The result is [None] when the loop has not finished within [fuel]
    pulls; the second component is the log of the collector calls. *)
Definition collect_step {T A R : Type} (c : collector T A R)
    (w : A * list (event T A)) (value : T)
    : (A * list (event T A)) * option exn :=
  let '(acc, log) := w in
  let log' := log ++ [EvAccumulator acc value] in
  match accumulator c acc value with
  | Ok acc' => ((acc', log'), None)
  | Err e => ((acc, log'), Some e)
  end.

Definition collect {T A R : Type} (c : collector T A R) (it : cursor T)
    (fuel : nat) : option (res R) * list (event T A) :=
  match supplier c tt with
  | Err e => (Some (Err e), [EvSupplier])
  | Ok result =>
      match py_for (cnext it) (collect_step c) fuel (cur it)
              (result, [EvSupplier]) with
      | (Done, (acc, log), _) =>
          (Some (finisher c acc), log ++ [EvFinisher acc])
      | (Raised e, (_, log), _) => (Some (Err e), log)
      | (NoFuel, (_, log), _) => (None, log)
      end
  end.

(** A collector whose methods return normally. *)
Definition pure_collector {T A R : Type} (sup : A) (acc : A -> T -> A)
    (fin : A -> R) : collector T A R :=
  Collector (fun _ => Ok sup) (fun a x => Ok (acc a x)) (fun a => Ok (fin a)).

(** The accumulator calls of a normal run from state [a] over [xs]. *)
Fixpoint accumulator_calls {T A : Type} (acc : A -> T -> A) (a : A)
    (xs : list T) : list (event T A) :=
  match xs with
  | [] => []
  | x :: xs' => EvAccumulator a x :: accumulator_calls acc (acc a x) xs'
  end.

(** ** Python values

    [reduce] returns [Optional[_T]]: an element or [None], which is itself
    a Python value that a stream may carry. *)
Inductive pyval : Type :=
| PyNone
| PyInt (z : Z)
| PyStr (s : string).

(** [operator.add] / [lambda a, b: a + b] on these values. *)
Definition py_add (a b : pyval) : res pyval :=
  match a, b with
  | PyInt x, PyInt y => Ok (PyInt (x + y))
  | PyStr x, PyStr y => Ok (PyStr (x ++ y)%string)
  | _, _ => Err (TypeError "unsupported operand type(s) for +")
  end.

(** The iterator [c] continued from state [s] ([self.it] after a pull). *)
Definition resume {T : Type} (c : cursor T) (s : cst c) : cursor T :=
  Cursor (cst := cst c) s (cnext c).

(** The result of a loop whose world is the returned value. *)
Definition loop_result {B St : Type} (r : ending * B * St) : option (res B) :=
  match r with
  | (Done, b, _) => Some (Ok b)
  | (Raised e, _, _) => Some (Err e)
  | (NoFuel, _, _) => None
  end.

(** One iteration of [identity = accumulator(identity, v)]. *)
Definition reduce_step {T U : Type} (accumulator : U -> T -> res U)
    (acc : U) (v : T) : U * option exn :=
  match accumulator acc v with
  | Ok r => (r, None)
  | Err e => (acc, Some e)
  end.

(** [Stream.reduce_identity]:
<<
    for v in self.it:
        identity = accumulator(identity, v)
    return identity
>> *)
Definition reduce_identity {T U : Type} (c : cursor T) (identity : U)
    (accumulator : U -> T -> res U) (fuel : nat) : option (res U) :=
  loop_result (py_for (cnext c) (reduce_step accumulator) fuel (cur c) identity).

(** [Stream.reduce] of [src/streams/streams.py]:
<<
    try:
        result = next(self.it)
    except StopIteration:
        return None
    return self.reduce_identity(result, accumulator)
>> *)
Definition reduce (c : cursor pyval) (accumulator : pyval -> pyval -> res pyval)
    (fuel : nat) : option (res pyval) :=
  match cnext c (cur c) with
  | Stop => Some (Ok PyNone)
  | Raise e => Some (Err e)
  | Yield result s => reduce_identity (resume c s) result accumulator fuel
  end.

(** [Stream.sum]: [self.reduce(operator.add)]. *)
Definition stream_sum (c : cursor pyval) (fuel : nat) : option (res pyval) :=
  reduce c py_add fuel.

(** The older revision [src/streams.py]. *)
Module Legacy.

  (** The loop of [Stream.reduce]:
<<
    for v in self.it:
        result = accumulator(result, v)
    return result
>> *)
Fixpoint reduce_loop {St : Type} (nxt : St -> step St pyval)
      (accumulator : pyval -> pyval -> res pyval) (fuel : nat) (s : St)
      (result : pyval) : option (res pyval) :=
    match fuel with
    | O => None
    | S fuel' =>
        match nxt s with
        | Stop => Some (Ok result)
        | Raise e => Some (Err e)
        | Yield v s' =>
            match accumulator result v with
            | Ok r => reduce_loop nxt accumulator fuel' s' r
            | Err e => Some (Err e)
            end
        end
    end.

  (** [Stream.reduce] of [src/streams.py]:
<<
    try:
        result = next(self.it)
    except StopIteration:
        return None
    for v in self.it:
        result = accumulator(result, v)
    return result
>> *)
Definition reduce (c : cursor pyval)
      (accumulator : pyval -> pyval -> res pyval) (fuel : nat)
      : option (res pyval) :=
    match cnext c (cur c) with
    | Stop => Some (Ok PyNone)
    | Raise e => Some (Err e)
    | Yield result s => reduce_loop (cnext c) accumulator fuel s result
    end.

End Legacy.

(** The builtin [max(iterable)] / [min(iterable)] (CPython [min_max]):
    the first item is kept, a later item replaces it when it compares
    greater ([item > maxitem], i.e. [maxitem < item]) for [max], or less
    for [min]; an empty iterable raises [ValueError]. *)
Definition minmax_step {T : Type} (better : T -> T -> bool)
    (best : option T) (item : T) : option T * option exn :=
  match best with
  | None => (Some item, None)
  | Some m => (Some (if better item m then item else m), None)
  end.

Definition py_min_max {T : Type} (better : T -> T -> bool) (msg : string)
    (c : cursor T) (fuel : nat) : option (res T) :=
  match py_for (cnext c) (minmax_step better) fuel (cur c) None with
  | (Done, Some m, _) => Some (Ok m)
  | (Done, None, _) => Some (Err (ValueError msg))
  | (Raised e, _, _) => Some (Err e)
  | (NoFuel, _, _) => None
  end.

Definition max_empty_msg : string := "max() arg is an empty sequence".
Definition min_empty_msg : string := "min() arg is an empty sequence".

(** [Stream.max]: [max(self.it)], with [<] given by [lt]. *)
Definition stream_max {T : Type} (lt : T -> T -> bool) (c : cursor T)
    (fuel : nat) : option (res T) :=
  py_min_max (fun item m => lt m item) max_empty_msg c fuel.

(** [Stream.min]: [min(self.it)]. *)
Definition stream_min {T : Type} (lt : T -> T -> bool) (c : cursor T)
    (fuel : nat) : option (res T) :=
  py_min_max (fun item m => lt item m) min_empty_msg c fuel.

(** ** The standard collectors of [src/streams/collectors.py] *)

(** [delimiter.join(items)] (builtin [str.join]). *)
Fixpoint py_join (delimiter : string) (items : list string) : string :=
  match items with
  | [] => ""
  | [x] => x
  | x :: rest => (x ++ delimiter ++ py_join delimiter rest)%string
  end.

Module Collectors.

  (** [joining(delimiter, prefix, suffix)]: the accumulator list gets
      [result.append(value)]; the finisher returns
      [self.prefix + self.delimiter.join(result) + self.suffix]. *)
Definition joining (delimiter prefix suffix : string)
      : collector string (list string) string :=
    Collector (fun _ => Ok [])
      (fun result value => Ok (result ++ [value]))
      (fun result => Ok (prefix ++ py_join delimiter result ++ suffix)%string).

  (** [to_dict(key_mapper, value_mapper)]:
<<
    def accumulator(self, result, value):
        key = self.key_mapper(value)
        if key in result:
            raise ValueError('duplicate key')
        result[key] = self.value_mapper(value)
>> *)
Definition duplicate_key : exn := ValueError "duplicate key".

Definition to_dict {T K U : Type} `{Countable K} (key_mapper : T -> K)
      (value_mapper : T -> U) : collector T (gmap K U) (gmap K U) :=
    Collector (fun _ => Ok ∅)
      (fun result value =>
         let key := key_mapper value in
         if decide (is_Some (result !! key)) then Err duplicate_key
         else Ok (<[key := value_mapper value]> result))
      (fun result => Ok result).

  (** The [_Wrapper] of [reducing]: its [value] is the private sentinel
      [_NOTHING] (never a stream element) or a Python value. *)
Inductive slot : Type :=
  | NOTHING
  | Held (v : pyval).

  (** [reducing(op)]:
<<
    def accumulator(self, result, value):
        if result.value is _NOTHING:
            result.value = value
        else:
            result.value = self.op(result.value, value)
    def finisher(self, result):
        if result.value is _NOTHING:
            return None
        return result.value
>> *)
Definition reducing (op : pyval -> pyval -> res pyval)
      : collector pyval slot pyval :=
    Collector (fun _ => Ok NOTHING)
      (fun result value =>
         match result with
         | NOTHING => Ok (Held value)
         | Held v => match op v value with
                     | Ok r => Ok (Held r)
                     | Err e => Err e
                     end
         end)
      (fun result => match result with
                     | NOTHING => Ok PyNone
                     | Held v => Ok v
                     end).

  (** [collecting_and_then(downstream, finisher)]: the downstream's
      supplier and accumulator; the finisher is
      [self.new_finisher(self.downstream.finisher(result))]. *)
Definition collecting_and_then {T A R RR : Type} (downstream : collector T A R)
      (new_finisher : R -> res RR) : collector T A RR :=
    Collector (fun u => supplier downstream u)
      (fun result value => accumulator downstream result value)
      (fun result => match finisher downstream result with
                     | Ok r => new_finisher r
                     | Err e => Err e
                     end).

  (** [grouping_by(classifier)]:
<<
    def accumulator(self, result, value):
        group = self.classifier(value)
        result.setdefault(group, []).append(value)
>> *)
Definition grouping_by {T K : Type} `{Countable K} (classifier : T -> K)
      : collector T (gmap K (list T)) (gmap K (list T)) :=
    Collector (fun _ => Ok ∅)
      (fun result value =>
         let group := classifier value in
         Ok (<[group := default [] (result !! group) ++ [value]]> result))
      (fun result => Ok result).

  (** [mapping(mapper, downstream)]: the accumulator is
      [self.downstream.accumulator(result, self.mapper(value))]. *)
Definition mapping {T U A R : Type} (mapper : T -> U) (downstream : collector U A R)
      : collector T A R :=
    Collector (fun u => supplier downstream u)
      (fun result value => accumulator downstream result (mapper value))
      (fun result => finisher downstream result).

  (** [result[partition].append(value)] with [partition = predicate(value)]:
      the [bool] indexes the pair ([False] is [0], [True] is [1]). *)
Definition partition_append {T : Type} (predicate : T -> bool)
      (result : list T * list T) (value : T) : list T * list T :=
    let '(l0, l1) := result in
    if predicate value then (l0, l1 ++ [value]) else (l0 ++ [value], l1).

  (** [partition(predicate)]. *)
Definition partition {T : Type} (predicate : T -> bool)
      : collector T (list T * list T) (list T * list T) :=
    Collector (fun _ => Ok ([], []))
      (fun result value => Ok (partition_append predicate result value))
      (fun result => Ok result).

  (** [Stream(l).collect(downstream)] on a list [l]: the list iterator
      ends after [length l] pulls, so [S (length l)] pulls always
      finish the loop (the [None] branch is never taken). *)
Definition collect_list {T A D : Type} (downstream : collector T A D) (l : list T)
      : res D :=
    match fst (collect downstream (of_list l) (S (length l))) with
    | Some r => r
    | None => Err (RuntimeError "unreachable")
    end.

  (** [partition_downstream(predicate, downstream)]: the buckets as in
      [partition]; the finisher collects bucket [0], then bucket [1]:
<<
    return (
        Stream(result[0]).collect(self.downstream),
        Stream(result[1]).collect(self.downstream)
    )
>> *)
Definition partition_downstream {T A D : Type} (predicate : T -> bool)
      (downstream : collector T A D) : collector T (list T * list T) (D * D) :=
    Collector (fun _ => Ok ([], []))
      (fun result value => Ok (partition_append predicate result value))
      (fun result =>
         match collect_list downstream (fst result) with
         | Err e => Err e
         | Ok d0 => match collect_list downstream (snd result) with
                    | Err e => Err e
                    | Ok d1 => Ok (d0, d1)
                    end
         end).

  (** [reducing_mapper(identity, mapper, op)]: the [_Wrapper] holds
      [identity] and the accumulator sets
      [result.value = self.op(result.value, self.mapper(value))]; the
      accumulator object is modelled by the wrapper's [value]. *)
Definition reducing_mapper {T U : Type} (identity : U) (mapper : T -> U)
      (op : U -> U -> res U) : collector T U U :=
    Collector (fun _ => Ok identity)
      (fun result value => op result (mapper value))
      (fun result => Ok result).

  (** [reducing_identity(identity, op)]:
      [reducing_mapper(identity, _identity, op)]. *)
Definition reducing_identity {T : Type} (identity : T) (op : T -> T -> res T)
      : collector T T T :=
    reducing_mapper identity (fun x => x) op.

  (** [to_list()]: [result.append(value)]. *)
Definition to_list {T : Type} : collector T (list T) (list T) :=
    Collector (fun _ => Ok []) (fun result value => Ok (result ++ [value]))
      (fun result => Ok result).

  (** [to_set()]: [result.add(value)]. *)
Definition to_set {T : Type} `{Countable T} : collector T (gset T) (gset T) :=
    Collector (fun _ => Ok ∅) (fun result value => Ok ({[value]} ∪ result))
      (fun result => Ok result).

End Collectors.

(** ** More of [Stream] ([src/streams/streams.py]) *)

(** [Stream.skip]: eager, at the call:
<<
    try:
        for _ in range(n):
            next(self.it)
    except StopIteration:
        pass
    return Stream(self.it)
>>
    Only [StopIteration] is caught; another exception propagates. *)
Fixpoint skip_pulls {St T : Type} (nxt : St -> step St T) (k : nat) (s : St)
    : res St :=
  match k with
  | O => Ok s
  | S k' =>
      match nxt s with
      | Yield _ s' => skip_pulls nxt k' s'
      | Stop => Ok s
      | Raise e => Err e
      end
  end.

Definition stream_skip {T : Type} (c : cursor T) (n : Z) : res (cursor T) :=
  match skip_pulls (cnext c) (Z.to_nat n) (cur c) with
  | Ok s => Ok (resume c s)
  | Err e => Err e
  end.

(** The generator of [Stream.concat(a, b)]: [yield from a] then
    [yield from b]. *)
Inductive concat_state (SA SB : Type) : Type :=
| InA (sa : SA) (sb : SB)
| InB (sb : SB).
Arguments InA {SA SB} sa sb.
Arguments InB {SA SB} sb.

Definition concat_next_b {SA SB T : Type} (nb : SB -> step SB T) (sb : SB)
    : step (concat_state SA SB) T :=
  match nb sb with
  | Yield x sb' => Yield x (InB sb')
  | Stop => Stop
  | Raise e => Raise e
  end.

Definition stream_concat {T : Type} (a b : cursor T) : cursor T :=
  Cursor (cst := concat_state (cst a) (cst b)) (InA (cur a) (cur b))
    (fun g => match g with
              | InA sa sb =>
                  match cnext a sa with
                  | Yield x sa' => Yield x (InA sa' sb)
                  | Stop => concat_next_b (cnext b) sb
                  | Raise e => Raise e
                  end
              | InB sb => concat_next_b (cnext b) sb
              end).

(** [Stream.peek(action)]:
<<
    def it():
        for v in self.it:
            action(v)
            yield v
>>
    The observable effect of [action(v)] is recorded in a log kept with
    the upstream state. *)
Definition peek {T E : Type} (action : T -> E) (c : cursor T) : cursor T :=
  Cursor (cst := cst c * list E) (cur c, [])
    (fun '(s, log) => match cnext c s with
                      | Yield v s' => Yield v (s', log ++ [action v])
                      | Stop => Stop
                      | Raise e => Raise e
                      end).

(** [Stream.count]: [sum(1 for _ in self.it)]. *)
Definition stream_count {T : Type} (c : cursor T) (fuel : nat) : option (res Z) :=
  loop_result (py_for (cnext c) (fun n _ => (n + 1, None)) fuel (cur c) 0).

(** The builtins [all] and [any] over [predicate(x) for x in self.it]:
    they stop at the first element whose value is [target] ([False] for
    [all], [True] for [any]) and return it, or return [not target] when
    the iterator is exhausted.  The final state is where [self.it] was
    left. *)
Fixpoint short_circuit {St T : Type} (target : bool) (predicate : T -> bool)
    (nxt : St -> step St T) (fuel : nat) (s : St) : option (res bool) * St :=
  match fuel with
  | O => (None, s)
  | S fuel' =>
      match nxt s with
      | Stop => (Some (Ok (negb target)), s)
      | Raise e => (Some (Err e), s)
      | Yield x s' =>
          if Bool.eqb (predicate x) target then (Some (Ok target), s')
          else short_circuit target predicate nxt fuel' s'
      end
  end.

(** [Stream.all_match]: [all(predicate(x) for x in self.it)]. *)
Definition all_match {T : Type} (predicate : T -> bool) (c : cursor T)
    (fuel : nat) : option (res bool) * cst c :=
  short_circuit false predicate (cnext c) fuel (cur c).

(** [Stream.any_match]: [any(predicate(x) for x in self.it)]. *)
Definition any_match {T : Type} (predicate : T -> bool) (c : cursor T)
    (fuel : nat) : option (res bool) * cst c :=
  short_circuit true predicate (cnext c) fuel (cur c).

(** Python truthiness of these values. *)
Definition truthy (v : pyval) : bool :=
  match v with
  | PyNone => false
  | PyInt z => negb (z =? 0)
  | PyStr s => negb (String.eqb s "")
  end.

(** [Stream.none_match]: [not any(self.it)], on the elements' truth. *)
Definition none_match (c : cursor pyval) (fuel : nat) : option (res bool) :=
  match fst (short_circuit true truthy (cnext c) fuel (cur c)) with
  | Some (Ok b) => Some (Ok (negb b))
  | r => r
  end.

(** The builtin [range(start, stop, step)] iterator: [start],
    [start + step], ... while below [stop] (above, for a negative step). *)
Definition range_iter (start stop step : Z) : cursor Z :=
  Cursor (cst := Z) start
    (fun x => if ((0 <? step) && (x <? stop)) || ((step <? 0) && (stop <? x))
              then Yield x (x + step) else Stop).

Definition range_zero_step : exn := ValueError "range() arg 3 must not be zero".

(** [Stream.range(start, stop=None, step=None)]:
<<
    if stop is None:
        r = range(start)
    elif step is None:
        r = range(start, stop)
    else:
        r = range(start, stop, step)
>> *)
Definition stream_range (start : Z) (stop step : option Z) : res (cursor Z) :=
  match stop, step with
  | None, _ => Ok (range_iter 0 start 1)
  | Some stop, None => Ok (range_iter start stop 1)
  | Some stop, Some step =>
      if step =? 0 then Err range_zero_step else Ok (range_iter start stop step)
  end.

(** ** Stages over a list source: [Stream(xs).filter], [.flat_map],
    [.distinct]

    One [__next__] of these stages pulls the source until it has an
    element to yield, however many elements that takes; over a list
    iterator the search is a structural recursion on the remaining
    list, which is the state. *)

(** The builtin [filter(predicate, it)]: [__next__] pulls [it] until an
    element satisfies the predicate. *)
Fixpoint filter_next {T : Type} (predicate : T -> bool) (l : list T)
    : step (list T) T :=
  match l with
  | [] => Stop
  | x :: l' => if predicate x then Yield x l' else filter_next predicate l'
  end.

(** [Stream(xs).filter(predicate)]. *)
Definition filter_list {T : Type} (predicate : T -> bool) (xs : list T) : cursor T :=
  Cursor (cst := list T) xs (filter_next predicate).

(** The generator of [flat_map]:
<<
    def it():
        for v in self.it:
            yield from mapper(v)
>>
    with [mapper] returning a list; the state is the rest of the source
    and the rest of the current [mapper(v)]. *)
Fixpoint flat_map_pull {T R : Type} (mapper : T -> list R) (outer : list T)
    : step (list T * list R) R :=
  match outer with
  | [] => Stop
  | v :: outer' =>
      match mapper v with
      | [] => flat_map_pull mapper outer'
      | y :: rest => Yield y (outer', rest)
      end
  end.

(** [Stream(xs).flat_map(mapper)]. *)
Definition flat_map_list {T R : Type} (mapper : T -> list R) (xs : list T)
    : cursor R :=
  Cursor (cst := list T * list R) (xs, [])
    (fun '(outer, inner) => match inner with
                            | y :: rest => Yield y (outer, rest)
                            | [] => flat_map_pull mapper outer
                            end).



(** ** [src/streams/__main__.py] *)

(** One [__next__] of the builtin [filter] object over any iterator:
    it pulls until an element satisfies the predicate; [None] when that
    takes more than [fuel] pulls. *)
Fixpoint filter_pull {St T : Type} (predicate : T -> bool) (nxt : St -> step St T)
    (fuel : nat) (s : St) : option (step St T) :=
  match fuel with
  | O => None
  | S fuel' =>
      match nxt s with
      | Yield x s' => if predicate x then Some (Yield x s')
                      else filter_pull predicate nxt fuel' s'
      | Stop => Some Stop
      | Raise e => Some (Raise e)
      end
  end.

(** [is_prime(i)]: [Stream(get_factors(i)).get_one() is None], where
    [get_factors(i)] is [Stream.range(2, i).filter(lambda x: (i % x) == 0)]
    and [get_one] is [next(self.it, None)]: one [__next__] of the filter
    object.  The factors are [int]s, never [None]. *)
Definition is_prime (i : Z) (fuel : nat) : option (res bool) :=
  match stream_range 2 (Some i) None with
  | Err e => Some (Err e)
  | Ok r =>
      match filter_pull (fun x => Z.eqb (Z.modulo i x) 0) (cnext r) fuel (cur r) with
      | None => None
      | Some (Yield _ _) => Some (Ok false)
      | Some Stop => Some (Ok true)
      | Some (Raise e) => Some (Err e)
      end
  end.

(** ** Definitions used by the statements and proofs *)

(** The loop body run over a list without raising: [Some] of the final
    world, or [None] when some iteration raises. *)
Fixpoint body_run {T B : Type} (body : B -> T -> B * option exn) (b : B)
    (xs : list T) : option B :=
  match xs with
  | [] => Some b
  | x :: xs' =>
      match body b x with
      | (b', None) => body_run body b' xs'
      | (_, Some _) => None
      end
  end.

(** The joined string as the spec words it: [e1 + d + e2 + ... + d + en]. *)
Definition joined_spec (d : string) (items : list string) : string :=
  match items with
  | [] => ""
  | e1 :: rest => (e1 ++ String.concat "" (map (fun e => d ++ e) rest))%string
  end.

(** The dictionary insertion [result[key] = value_mapper(value)]. *)
Definition dict_insert {T K U : Type} `{Countable K} (key_mapper : T -> K)
    (value_mapper : T -> U) (m : gmap K U) (x : T) : gmap K U :=
  <[key_mapper x := value_mapper x]> m.

(** The key/value pairs of the elements, in encounter order. *)
Definition key_values {T K U : Type} (key_mapper : T -> K)
    (value_mapper : T -> U) (xs : list T) : list (K * U) :=
  map (fun x => (key_mapper x, value_mapper x)) xs.

(** ** Sanity checks on small inputs *)

Example of_123_reduce_add :
  reduce (of_list [PyInt 1; PyInt 2; PyInt 3]) py_add 5 = Some (Ok (PyInt 6)).
Proof. reflexivity. Qed.

Example iterate_limit_5 :
  to_list (limit (iterate 1 (fun x => x * 2)) 5) 6
  = (Done, [1; 2; 4; 8; 16], (O, Some 16)).
Proof. reflexivity. Qed.

Example joining_example :
  fst (collect (Collectors.joining ", " "[" "]") (of_list ["0"; "1"; "2"]) 4)
  = Some (Ok "[0, 1, 2]"%string).
Proof. reflexivity. Qed.

Example limit_overrun :
  fst (fst (to_list (limit (of_list [1; 2]) 3) 5))
  = Raised (RuntimeError pep479_msg).
Proof. reflexivity. Qed.

Example max_example :
  stream_max Z.ltb (of_list [3; 7; 1]) 4 = Some (Ok 7).
Proof. reflexivity. Qed.

Example to_dict_dup :
  fst (collect (Collectors.to_dict (fun x : Z => Z.modulo x 2) (fun x => x))
         (of_list [1; 3; 2]) 5) = Some (Err Collectors.duplicate_key).
Proof. vm_compute. reflexivity. Qed.

(** ** Loops over a list iterator *)

Lemma py_for_list_done {T B : Type} (body : B -> T -> B * option exn)
    (xs : list T) (b b' : B) (fuel : nat) :
  body_run body b xs = Some b' -> (length xs < fuel)%nat ->
  py_for (cnext (of_list xs)) body fuel xs b = (Done, b', []).
Proof.
  revert b fuel. induction xs as [|x xs IH]; intros b fuel Hrun Hlen;
    destruct fuel as [|fuel]; simpl in *; try lia.
  - congruence.
  - destruct (body b x) as [b0 [e|]]; [discriminate|].
    apply IH; [exact Hrun | lia].
Qed.

Lemma py_for_list_prefix {T B : Type} (body : B -> T -> B * option exn)
    (pre rest : list T) (b b' : B) (fuel : nat) :
  body_run body b pre = Some b' ->
  py_for (cnext (of_list (pre ++ rest))) body (length pre + fuel) (pre ++ rest) b
  = py_for (cnext (of_list rest)) body fuel rest b'.
Proof.
  revert b. induction pre as [|x pre IH]; intros b Hrun; simpl in *.
  - congruence.
  - destruct (body b x) as [b0 [e|]]; [discriminate|]. apply IH, Hrun.
Qed.

Lemma collect_step_total {T A R : Type} (c : collector T A R)
    (acc : A -> T -> A) :
  (forall a x, accumulator c a x = Ok (acc a x)) ->
  forall xs a log,
  body_run (collect_step c) (a, log) xs
  = Some (fold_left acc xs a, log ++ accumulator_calls acc a xs).
Proof.
  intros Hacc xs. induction xs as [|x xs IH]; intros a log; simpl.
  - by rewrite app_nil_r.
  - rewrite Hacc, IH. by rewrite <- app_assoc.
Qed.

Lemma collect_run_total {T A R : Type} (c : collector T A R) (sup : A)
    (acc : A -> T -> A) (fin : A -> R) (xs : list T) (fuel : nat) :
  supplier c tt = Ok sup ->
  (forall a x, accumulator c a x = Ok (acc a x)) ->
  (forall a, finisher c a = Ok (fin a)) ->
  (length xs < fuel)%nat ->
  collect c (of_list xs) fuel
  = (Some (Ok (fin (fold_left acc xs sup))),
     EvSupplier :: accumulator_calls acc sup xs
       ++ [EvFinisher (fold_left acc xs sup)]).
Proof.
  intros Hsup Hacc Hfin Hlen. unfold collect. rewrite Hsup.
  change (cur (of_list xs)) with xs.
  rewrite (py_for_list_done _ _ _ _ _ (collect_step_total c acc Hacc xs sup _) Hlen).
  by rewrite Hfin.
Qed.

(** ** C1: the collector protocol of [collect] *)

(** C1: for every collector whose methods return normally and every
    finite input, [collect] calls [supplier()] once, then
    [accumulator(acc, element)] once per element in cursor order, then
    [finisher(acc)] exactly once after the last accumulation, and returns
    the finisher's result. *)
Theorem collect_calls_in_order {T A R : Type} (c : collector T A R) (sup : A)
    (acc : A -> T -> A) (fin : A -> R) (xs : list T) (fuel : nat) :
  supplier c tt = Ok sup ->
  (forall a x, accumulator c a x = Ok (acc a x)) ->
  (forall a, finisher c a = Ok (fin a)) ->
  (length xs < fuel)%nat ->
  collect c (of_list xs) fuel
  = (Some (Ok (fin (fold_left acc xs sup))),
     EvSupplier :: accumulator_calls acc sup xs
       ++ [EvFinisher (fold_left acc xs sup)]).
Proof. apply collect_run_total. Qed.

Lemma collect_calls_in_order_witness :
  collect (pure_collector 0 Z.add (fun a => 10 * a)) (of_list [1; 2]) 3
  = (Some (Ok 30), [EvSupplier; EvAccumulator 0 1; EvAccumulator 1 2; EvFinisher 3]).
Proof.
  apply (collect_calls_in_order (pure_collector 0 Z.add (fun a => 10 * a))
           0 Z.add (fun a => 10 * a) [1; 2] 3);
    [reflexivity | reflexivity | reflexivity | simpl; lia].
Defined.

(** ** C3: [joining] *)

(** [String.append] is [simpl never] once stdpp is loaded. *)
Lemma string_append_cons (ch : Ascii.ascii) (a b : string) :
  (String ch a ++ b)%string = String ch (a ++ b)%string.
Proof. reflexivity. Qed.

Lemma string_append_assoc (a b c : string) :
  (a ++ (b ++ c))%string = ((a ++ b) ++ c)%string.
Proof.
  induction a as [|ch a IH]; [done|].
  by rewrite !string_append_cons, IH.
Qed.

Lemma string_append_nil_r (a : string) : (a ++ "")%string = a.
Proof. induction a as [|ch a IH]; [done|]. by rewrite string_append_cons, IH. Qed.

Lemma string_concat_empty_cons (a : string) (l : list string) :
  String.concat "" (a :: l) = (a ++ String.concat "" l)%string.
Proof. destruct l; simpl; [by rewrite string_append_nil_r | done]. Qed.

Lemma py_join_joined_spec (d : string) (items : list string) :
  py_join d items = joined_spec d items.
Proof.
  induction items as [|x rest IH]; [done|].
  destruct rest as [|y rest].
  - simpl. by rewrite string_append_nil_r.
  - change (py_join d (x :: y :: rest))
      with (x ++ d ++ py_join d (y :: rest))%string.
    rewrite IH. unfold joined_spec. cbn [map].
    rewrite (string_concat_empty_cons (d ++ y)%string).
    by rewrite <- string_append_assoc.
Qed.

Lemma fold_left_append_value {X : Type} (xs r : list X) :
  fold_left (fun r v => r ++ [v]) xs r = r ++ xs.
Proof.
  revert r. induction xs as [|x xs IH]; intros r; simpl.
  - by rewrite app_nil_r.
  - by rewrite IH, <- app_assoc.
Qed.

(** C3: collecting strings [e1..en] with [joining(d, p, s)] returns
    [p + (e1 + d + e2 + ... + d + en) + s], the prefix and the suffix
    once each; over [["0","1","2"]] with [joining(', ', '[', ']')] it is
    ["[0, 1, 2]"]. *)
Theorem joining_prefix_joined_suffix (d p s : string) (xs : list string)
    (fuel : nat) :
  (length xs < fuel)%nat ->
  fst (collect (Collectors.joining d p s) (of_list xs) fuel)
  = Some (Ok (p ++ joined_spec d xs ++ s)%string)
  /\ fst (collect (Collectors.joining ", " "[" "]") (of_list ["0"; "1"; "2"]) 4)
     = Some (Ok "[0, 1, 2]"%string).
Proof.
  intros Hlen. split; [|reflexivity].
  rewrite (collect_run_total (Collectors.joining d p s) []
             (fun r v => r ++ [v]) (fun r => p ++ py_join d r ++ s)%string
             xs fuel); try done.
  simpl. by rewrite fold_left_append_value, py_join_joined_spec.
Qed.

Lemma joining_prefix_joined_suffix_witness :
  fst (collect (Collectors.joining "-" "<" ">") (of_list ["a"; "b"]) 3)
  = Some (Ok "<a-b>"%string).
Proof.
  destruct (joining_prefix_joined_suffix "-" "<" ">" ["a"; "b"] 3) as [H _];
    [simpl; lia|].
  rewrite H. reflexivity.
Defined.

(** ** C8: [map] fusion *)

(** C8: [S.map(f).map(g)] and [S.map(lambda x: g(f(x)))] materialise to
    the same elements in the same order (and leave the source in the
    same state), for every iterator and every number of pulls. *)
Theorem map_map_fusion {T U R : Type} (f : T -> U) (g : U -> R)
    (c : cursor T) (fuel : nat) :
  to_list (stream_map g (stream_map f c)) fuel
  = to_list (stream_map (fun x => g (f x)) c) fuel.
Proof.
  unfold to_list. cbn [cur].
  assert (Hloop : forall (s : cst c) (l : list R),
    py_for (cnext (stream_map g (stream_map f c))) (fun l x => (l ++ [x], None))
      fuel s l
    = py_for (cnext (stream_map (fun x => g (f x)) c))
        (fun l x => (l ++ [x], None)) fuel s l).
  { induction fuel as [|fuel IH]; intros s l; [done|].
    cbn [py_for cnext stream_map]. destruct (cnext c s); [apply IH | done | done]. }
  apply Hloop.
Qed.

(** ** C9: [iterate] bounded by [limit] *)

(** C9: [iterate(1, lambda x: x*2).limit(5).to_list()] terminates with
    [[1, 2, 4, 8, 16]]; afterwards the [iterate] generator is suspended
    at its fifth [yield] (it was pulled exactly five times) and the
    [range(5)] loop of [limit] is used up. *)
Theorem iterate_limit_to_list (fuel : nat) :
  (6 <= fuel)%nat ->
  to_list (limit (iterate 1 (fun x => x * 2)) 5) fuel
  = (Done, [1; 2; 4; 8; 16], (O, Some 16)).
Proof.
  intros Hfuel.
  do 6 (destruct fuel as [|fuel]; [lia|]).
  reflexivity.
Qed.

Lemma iterate_limit_to_list_witness :
  to_list (limit (iterate 1 (fun x => x * 2)) 5) 100
  = (Done, [1; 2; 4; 8; 16], (O, Some 16)).
Proof. apply iterate_limit_to_list. lia. Defined.

(** ** C10: the two revisions of [reduce] *)

Lemma reduce_loop_py_for {St : Type} (nxt : St -> step St pyval)
    (op : pyval -> pyval -> res pyval) (fuel : nat) (s : St) (r : pyval) :
  Legacy.reduce_loop nxt op fuel s r
  = loop_result (py_for nxt (reduce_step op) fuel s r).
Proof.
  revert s r. induction fuel as [|fuel IH]; intros s r; [done|].
  cbn [Legacy.reduce_loop py_for]. destruct (nxt s) as [v s'| |e]; [|done|done].
  unfold reduce_step. destruct (op r v); [apply IH | done].
Qed.

(** C10: the direct loop of [src/streams.py] and the version of
    [src/streams/streams.py] that seeds [reduce_identity] with the first
    element return the same result on every iterator, the empty one
    included. *)
Theorem reduce_revisions_agree (c : cursor pyval)
    (op : pyval -> pyval -> res pyval) (fuel : nat) :
  Legacy.reduce c op fuel = reduce c op fuel.
Proof.
  unfold Legacy.reduce, reduce, reduce_identity.
  destruct (cnext c (cur c)) as [x s| |e]; [|done|done].
  apply reduce_loop_py_for.
Qed.

(** ** C2: [limit] *)

Lemma limit_list_past_end {T : Type} (xs acc : list T) (k fuel : nat) :
  (length xs < k)%nat -> (length xs < fuel)%nat ->
  fst (py_for (cnext (limit (of_list xs) (Z.of_nat k)))
         (fun l x => (l ++ [x], None)) fuel (k, xs) acc)
  = (Raised (RuntimeError pep479_msg), acc ++ xs).
Proof.
  revert acc k fuel. induction xs as [|x xs IH]; intros acc k fuel Hk Hfuel;
    destruct k as [|k]; destruct fuel as [|fuel]; simpl in *; try lia.
  - by rewrite app_nil_r.
  - rewrite IH; [by rewrite <- app_assoc | lia | lia].
Qed.

(** [limit(0)] yields nothing and never pulls the source. *)
Lemma limit_zero_empty {T : Type} (c : cursor T) (fuel : nat) :
  to_list (limit c 0) (S fuel) = (Done, [], (O, cur c)).
Proof. reflexivity. Qed.

(** C2 (the defect): on a finite sequence of length [L], [limit(n)] with
    [n > L] does not yield the [L] elements: the [next(self.it)] in its
    generator raises [StopIteration] once the source is exhausted, which
    Python turns into [RuntimeError], so [to_list()] raises. *)
Theorem limit_past_end_raises {T : Type} (xs : list T) (n fuel : nat) :
  (length xs < n)%nat -> (length xs < fuel)%nat ->
  fst (to_list (limit (of_list xs) (Z.of_nat n)) fuel)
  = (Raised (RuntimeError pep479_msg), xs).
Proof.
  intros Hn Hfuel. unfold to_list. cbn [cur limit].
  rewrite Nat2Z.id. apply limit_list_past_end; assumption.
Qed.

Lemma limit_past_end_raises_witness :
  fst (to_list (limit (of_list [1; 2]) 3) 5)
  = (Raised (RuntimeError pep479_msg), [1; 2]).
Proof.
  apply (limit_past_end_raises [1; 2] 3 5); simpl; lia.
Defined.

(** ** C5, C6: [reduce] and [reducing] *)

Lemma body_run_total {T B : Type} (body : B -> T -> B * option exn)
    (f : B -> T -> B) :
  (forall b x, body b x = (f b x, None)) ->
  forall xs b, body_run body b xs = Some (fold_left f xs b).
Proof.
  intros Hbody xs. induction xs as [|x xs IH]; intros b; simpl; [done|].
  rewrite Hbody. apply IH.
Qed.

Lemma reduce_of_list_total (op : pyval -> pyval -> pyval) (x : pyval)
    (xs : list pyval) (fuel : nat) :
  (length xs < fuel)%nat ->
  reduce (of_list (x :: xs)) (fun a b => Ok (op a b)) fuel
  = Some (Ok (fold_left op xs x)).
Proof.
  intros Hlen. unfold reduce, reduce_identity. cbn [cur cnext of_list resume].
  rewrite (py_for_list_done _ xs x (fold_left op xs x) fuel); [done| |done].
  by apply body_run_total.
Qed.

(** C5: [reduce(op)] is [None] on an empty sequence and the left fold
    seeded with the first element on [e1..en]; [Stream.of(1,2,3)]
    reduced with addition is [6]. *)
Theorem reduce_left_fold (op : pyval -> pyval -> pyval) (x : pyval)
    (xs : list pyval) (fuel : nat) :
  (length xs < fuel)%nat ->
  reduce (of_list []) (fun a b => Ok (op a b)) fuel = Some (Ok PyNone)
  /\ reduce (of_list (x :: xs)) (fun a b => Ok (op a b)) fuel
     = Some (Ok (fold_left op xs x))
  /\ reduce (of_list [PyInt 1; PyInt 2; PyInt 3]) py_add 3 = Some (Ok (PyInt 6)).
Proof.
  intros Hlen. split; [done|]. split; [|reflexivity].
  by apply reduce_of_list_total.
Qed.

Lemma reduce_left_fold_witness :
  reduce (of_list [PyStr "a"; PyStr "b"])
    (fun a b => Ok (match a, b with
                    | PyStr s, PyStr t => PyStr (s ++ t)%string
                    | _, _ => a
                    end)) 2
  = Some (Ok (PyStr "ab")).
Proof.
  destruct (reduce_left_fold
              (fun a b => match a, b with
                          | PyStr s, PyStr t => PyStr (s ++ t)%string
                          | _, _ => a
                          end) (PyStr "a") [PyStr "b"] 2) as [_ [H _]];
    [simpl; lia|].
  rewrite H. reflexivity.
Defined.

(** The accumulator and finisher of [reducing] when [op] returns. *)
Lemma reducing_of_list_total (op : pyval -> pyval -> pyval) (x : pyval)
    (xs : list pyval) (fuel : nat) :
  (length (x :: xs) < fuel)%nat ->
  fst (collect (Collectors.reducing (fun a b => Ok (op a b)))
         (of_list (x :: xs)) fuel)
  = Some (Ok (fold_left op xs x)).
Proof.
  intros Hlen.
  set (acc := fun (w : Collectors.slot) (v : pyval) =>
               match w with
               | Collectors.NOTHING => Collectors.Held v
               | Collectors.Held a => Collectors.Held (op a v)
               end).
  set (fin := fun (w : Collectors.slot) =>
               match w with Collectors.NOTHING => PyNone | Collectors.Held v => v end).
  rewrite (collect_run_total _ Collectors.NOTHING acc fin (x :: xs) fuel);
    [| done | by intros [|a] v | by intros [|a] | done].
  cbn [fst fold_left]. f_equal. f_equal.
  assert (Hfold : forall ys a,
            fold_left acc ys (Collectors.Held a) = Collectors.Held (fold_left op ys a)).
  { induction ys as [|y ys IH]; intros a; [done|]. apply IH. }
  subst fin. simpl. by rewrite Hfold.
Qed.

Lemma reducing_empty (op : pyval -> pyval -> res pyval) (fuel : nat) :
  fst (collect (Collectors.reducing op) (of_list []) (S fuel)) = Some (Ok PyNone).
Proof. reflexivity. Qed.

(** C6 does not hold: [Stream.of(None).reduce(op)] and
    [Stream.of(None).collect(reducing(op))] give [None], the very value
    returned for the empty stream. *)
Lemma reduce_absent_indicator_collides :
  reduce (of_list [PyNone]) py_add 1 = reduce (of_list []) py_add 1
  /\ fst (collect (Collectors.reducing py_add) (of_list [PyNone]) 2)
     = fst (collect (Collectors.reducing py_add) (of_list []) 2)
  /\ reduce (of_list [PyNone]) py_add 1 = Some (Ok PyNone).
Proof. split; [|split]; reflexivity. Qed.

Lemma fold_left_not_none (op : pyval -> pyval -> pyval) :
  (forall a b, op a b <> PyNone) ->
  forall xs x, x <> PyNone -> fold_left op xs x <> PyNone.
Proof.
  intros Hop xs. induction xs as [|y xs IH]; intros x Hx; simpl; [done|].
  apply IH, Hop.
Qed.

(** C6, as amended: [reduce] and [reducing] return [None] on empty input
    and the left fold on non-empty input, so the two results differ
    whenever the first element is not [None] and [op] never returns
    [None]. *)
Theorem reduce_absent_distinct_from_fold (op : pyval -> pyval -> pyval)
    (x : pyval) (xs : list pyval) (fuel : nat) :
  (forall a b, op a b <> PyNone) -> x <> PyNone ->
  (length (x :: xs) < fuel)%nat ->
  reduce (of_list (x :: xs)) (fun a b => Ok (op a b)) fuel
    <> reduce (of_list []) (fun a b => Ok (op a b)) fuel
  /\ fst (collect (Collectors.reducing (fun a b => Ok (op a b))) (of_list (x :: xs)) fuel)
    <> fst (collect (Collectors.reducing (fun a b => Ok (op a b))) (of_list []) fuel).
Proof.
  intros Hop Hx Hlen.
  pose proof (fold_left_not_none op Hop xs x Hx) as Hne.
  destruct fuel as [|fuel]; [simpl in Hlen; lia|].
  rewrite reducing_empty, reducing_of_list_total by exact Hlen.
  rewrite reduce_of_list_total by (simpl in Hlen; lia).
  cbn [reduce cnext cur of_list].
  split; intros Heq; apply Hne; congruence.
Qed.

Lemma reduce_absent_distinct_from_fold_witness :
  reduce (of_list [PyInt 1; PyInt 2]) (fun a b => Ok (PyInt 0)) 3
    <> reduce (of_list []) (fun a b => Ok (PyInt 0)) 3
  /\ fst (collect (Collectors.reducing (fun a b => Ok (PyInt 0)))
            (of_list [PyInt 1; PyInt 2]) 3)
    <> fst (collect (Collectors.reducing (fun a b => Ok (PyInt 0))) (of_list []) 3).
Proof.
  apply (reduce_absent_distinct_from_fold (fun _ _ => PyInt 0) (PyInt 1) [PyInt 2] 3);
    [discriminate | discriminate | simpl; lia].
Defined.

(** ** C7: [max] and [min] *)

Section MinMax.
Context {T : Type} (lt : T -> T -> bool).
Hypothesis lt_irrefl : forall a, lt a a = false.
Hypothesis lt_trans : forall a b c, lt a b = true -> lt b c = true -> lt a c = true.
Hypothesis lt_total : forall a b, a = b \/ lt a b = true \/ lt b a = true.

  (** The item kept by [max]-style selection under a strict order [r] is
      never [r]-below an item already seen. *)
Lemma minmax_fold_top (r : T -> T -> bool) :
    (forall a, r a a = false) ->
    (forall a b c, r a b = true -> r b c = true -> r a c = true) ->
    forall l m seen, In m seen -> (forall z, In z seen -> r m z = false) ->
    exists M,
      fold_left (fun b y => fst (minmax_step (fun item m => r m item) b y)) l (Some m)
      = Some M
      /\ In M (seen ++ l) /\ forall z, In z (seen ++ l) -> r M z = false.
  Proof.
    intros Hirr Htrans l. induction l as [|y l IH]; intros m seen Hin Htop.
    - exists m. rewrite app_nil_r. auto.
    - cbn [fold_left minmax_step fst].
      destruct (IH (if r m y then y else m) (seen ++ [y])) as [M [Hfold [HinM HtopM]]].
      + apply in_or_app. destruct (r m y); [right; left; done | left; done].
      + intros z Hz. apply in_app_or in Hz as [Hz | [<- | []]].
        * destruct (r m y) eqn:Hmy; [|by apply Htop].
          destruct (r y z) eqn:Hyz; [|done].
          pose proof (Htop z Hz). pose proof (Htrans m y z Hmy Hyz). congruence.
        * destruct (r m y) eqn:Hmy; [apply Hirr | exact Hmy].
      + exists M. rewrite <- app_assoc in HinM, HtopM. auto.
  Qed.

Lemma py_min_max_list (r : T -> T -> bool) (msg : string) (l : list T)
      (fuel : nat) :
    (forall a, r a a = false) ->
    (forall a b c, r a b = true -> r b c = true -> r a c = true) ->
    (length l < fuel)%nat ->
    (l = [] -> py_min_max (fun item m => r m item) msg (of_list l) fuel
               = Some (Err (ValueError msg)))
    /\ (l <> [] -> exists M,
          py_min_max (fun item m => r m item) msg (of_list l) fuel = Some (Ok M)
          /\ In M l /\ forall z, In z l -> r M z = false).
  Proof.
    intros Hirr Htrans Hlen. split.
    - intros ->. destruct fuel; [simpl in Hlen; lia | reflexivity].
    - intros Hne. destruct l as [|x l]; [done|].
      destruct (minmax_fold_top r Hirr Htrans l x [x]) as [M [Hfold [HinM HtopM]]];
        [left; done | intros z [<- | []]; apply Hirr |].
      exists M. unfold py_min_max. cbn [cur].
      rewrite (py_for_list_done _ (x :: l) None (Some M) fuel); [done| |done].
      rewrite (body_run_total _ (fun b y => fst (minmax_step (fun item m => r m item) b y)));
        [|by intros [b|] y].
      cbn [fold_left minmax_step fst]. by rewrite Hfold.
  Qed.

  (** C7: on an empty sequence [max()] and [min()] raise [ValueError]
      (the builtins' empty-sequence error); on a non-empty sequence of
      totally ordered elements they return an element that is the maximum
      (respectively minimum). *)
Theorem max_min_empty_error_or_extreme (l : list T) (fuel : nat) :
    (length l < fuel)%nat ->
    (l = [] ->
       stream_max lt (of_list l) fuel = Some (Err (ValueError max_empty_msg))
       /\ stream_min lt (of_list l) fuel = Some (Err (ValueError min_empty_msg)))
    /\ (l <> [] ->
       (exists M, stream_max lt (of_list l) fuel = Some (Ok M)
          /\ In M l /\ forall y, In y l -> y = M \/ lt y M = true)
       /\ (exists m, stream_min lt (of_list l) fuel = Some (Ok m)
          /\ In m l /\ forall y, In y l -> y = m \/ lt m y = true)).
  Proof.
    intros Hlen.
    assert (Hflip_irr : forall a, (fun a b => lt b a) a a = false) by exact lt_irrefl.
    assert (Hflip_trans : forall a b c, (fun a b => lt b a) a b = true ->
              (fun a b => lt b a) b c = true -> (fun a b => lt b a) a c = true).
    { intros a b c Hab Hbc. exact (lt_trans c b a Hbc Hab). }
    destruct (py_min_max_list lt max_empty_msg l fuel lt_irrefl lt_trans Hlen)
      as [Hmax0 Hmax1].
    destruct (py_min_max_list (fun a b => lt b a) min_empty_msg l fuel
                Hflip_irr Hflip_trans Hlen) as [Hmin0 Hmin1].
    split.
    - intros Hl. split; [apply Hmax0, Hl | apply Hmin0, Hl].
    - intros Hl. split.
      + destruct (Hmax1 Hl) as [M [Hrun [HinM Htop]]].
        exists M. split; [exact Hrun|]. split; [exact HinM|].
        intros y Hy. specialize (Htop y Hy).
        destruct (lt_total y M) as [-> | [H | H]]; [left | right | ]; try done.
        by rewrite H in Htop.
      + destruct (Hmin1 Hl) as [m [Hrun [Hinm Htop]]].
        exists m. split; [exact Hrun|]. split; [exact Hinm|].
        intros y Hy. specialize (Htop y Hy). cbn beta in Htop.
        destruct (lt_total y m) as [-> | [H | H]]; [left | | right]; try done.
        by rewrite H in Htop.
  Qed.
End MinMax.

Lemma max_min_empty_error_or_extreme_witness :
  stream_max Z.ltb (of_list []) 1 = Some (Err (ValueError max_empty_msg))
  /\ exists M, stream_max Z.ltb (of_list [3; 7; 1]) 4 = Some (Ok M)
               /\ In M [3; 7; 1].
Proof.
  pose proof (max_min_empty_error_or_extreme Z.ltb Z.ltb_irrefl
                ltac:(intros a b c; rewrite !Z.ltb_lt; lia)
                ltac:(intros a b; rewrite !Z.ltb_lt; lia)) as Hthm.
  split.
  - destruct (Hthm [] 1%nat ltac:(simpl; lia)) as [H0 _].
    exact (proj1 (H0 eq_refl)).
  - destruct (Hthm [3; 7; 1] 4%nat ltac:(simpl; lia)) as [_ H1].
    destruct (H1 ltac:(discriminate)) as [[M [HM [HinM _]]] _].
    exists M. split; assumption.
Defined.

(** ** C4: [to_dict] *)

Section ToDict.
Context {T K U : Type} `{Countable K} (key_mapper : T -> K)
    (value_mapper : T -> U).

Lemma key_values_keys (l : list T) :
    (key_values key_mapper value_mapper l).*1 = map key_mapper l.
  Proof.
    unfold key_values. induction l as [|x l IH]; [done|].
    cbn [map]. rewrite fmap_cons. by rewrite IH.
  Qed.

Lemma to_dict_fold_list_to_map (xs pre : list T) :
    NoDup (map key_mapper (pre ++ xs)) ->
    fold_left (dict_insert key_mapper value_mapper) xs
      (list_to_map (key_values key_mapper value_mapper pre))
    = list_to_map (key_values key_mapper value_mapper (pre ++ xs)).
  Proof.
    revert pre. induction xs as [|x xs IH]; intros pre Hnd; simpl.
    - by rewrite app_nil_r.
    - assert (Hnotin : ~ In (key_mapper x) (map key_mapper pre)).
      { rewrite map_app in Hnd. cbn [map] in Hnd.
        apply NoDup_app in Hnd as [_ [Hdisj _]].
        intros Hin. apply (Hdisj (key_mapper x));
          [by apply list_elem_of_In | apply list_elem_of_here]. }
      assert (Hstep : dict_insert key_mapper value_mapper
                        (list_to_map (key_values key_mapper value_mapper pre)) x
                      = list_to_map (key_values key_mapper value_mapper (pre ++ [x]))).
      { unfold dict_insert, key_values. rewrite map_app. cbn [map].
        rewrite list_to_map_snoc; [done|].
        fold (key_values key_mapper value_mapper pre). rewrite key_values_keys.
        rewrite list_elem_of_In. exact Hnotin. }
      rewrite Hstep, IH; [by rewrite <- app_assoc |].
      by rewrite <- app_assoc.
  Qed.

Lemma to_dict_body_run (xs : list T) (m : gmap K U) log :
    NoDup (map key_mapper xs) ->
    (forall x, In x xs -> m !! key_mapper x = None) ->
    body_run (collect_step (Collectors.to_dict key_mapper value_mapper)) (m, log) xs
    = Some (fold_left (dict_insert key_mapper value_mapper) xs m,
            log ++ accumulator_calls (dict_insert key_mapper value_mapper) m xs).
  Proof.
    revert m log. induction xs as [|x xs IH]; intros m log Hnd Hfresh; simpl.
    - by rewrite app_nil_r.
    - apply NoDup_cons in Hnd as [Hx Hnd].
      case_decide as Hd.
      { rewrite (Hfresh x (or_introl eq_refl)) in Hd. by destruct Hd. }
      rewrite IH; [by rewrite <- app_assoc | exact Hnd |].
      intros y Hy. rewrite lookup_insert_ne.
      + apply Hfresh. by right.
      + intros Heq. apply Hx. rewrite Heq. apply list_elem_of_In. by apply in_map.
  Qed.

Lemma to_dict_lookup_some (pre : list T) (m : gmap K U) (k : K) :
    In k (map key_mapper pre) \/ is_Some (m !! k) ->
    is_Some (fold_left (dict_insert key_mapper value_mapper) pre m !! k).
  Proof.
    revert m. induction pre as [|x pre IH]; intros m Hk; simpl.
    - by destruct Hk as [[] | Hs].
    - apply IH. unfold dict_insert.
      destruct Hk as [[Heq | Hin] | Hs].
      + right. rewrite Heq, lookup_insert_eq. eauto.
      + by left.
      + right. destruct (decide (key_mapper x = k)) as [<- | Hne].
        * rewrite lookup_insert_eq. eauto.
        * by rewrite lookup_insert_ne.
  Qed.
End ToDict.

(** C4: collecting with [to_dict(key_mapper, value_mapper)] raises
    [ValueError('duplicate key')] at the accumulation step of the first
    element whose key was already produced by an earlier element (the
    accumulator is never called on the later elements, the map is never
    overwritten, the finisher is never called); when all keys are
    distinct it returns the map from each key to its value. *)
Theorem to_dict_fails_on_first_duplicate_key {T K U : Type} `{Countable K}
    (key_mapper : T -> K) (value_mapper : T -> U) :
  (forall (xs : list T) (fuel : nat),
     NoDup (map key_mapper xs) -> (length xs < fuel)%nat ->
     collect (Collectors.to_dict key_mapper value_mapper) (of_list xs) fuel
     = (Some (Ok (list_to_map (key_values key_mapper value_mapper xs))),
        EvSupplier :: accumulator_calls (dict_insert key_mapper value_mapper) ∅ xs
          ++ [EvFinisher (list_to_map (key_values key_mapper value_mapper xs))]))
  /\ (forall (pre : list T) (x : T) (post : list T) (fuel : nat),
     NoDup (map key_mapper pre) -> In (key_mapper x) (map key_mapper pre) ->
     (length (pre ++ x :: post) < fuel)%nat ->
     collect (Collectors.to_dict key_mapper value_mapper)
       (of_list (pre ++ x :: post)) fuel
     = (Some (Err Collectors.duplicate_key),
        EvSupplier :: accumulator_calls (dict_insert key_mapper value_mapper) ∅ pre
          ++ [EvAccumulator (list_to_map (key_values key_mapper value_mapper pre)) x])).
Proof.
  split.
  - intros xs fuel Hnd Hlen. unfold collect. cbn [supplier Collectors.to_dict].
    change (cur (of_list xs)) with xs.
    rewrite (py_for_list_done _ xs _ _ fuel
               (to_dict_body_run key_mapper value_mapper xs ∅ [EvSupplier] Hnd
                  (fun y _ => lookup_empty _)) Hlen).
    cbn [finisher Collectors.to_dict].
    pose proof (to_dict_fold_list_to_map key_mapper value_mapper xs [] Hnd) as Hf.
    change (list_to_map (key_values key_mapper value_mapper []))
      with (∅ : gmap K U) in Hf.
    cbn [app] in Hf. by rewrite Hf.
  - intros pre x post fuel Hnd Hin Hlen.
    rewrite length_app in Hlen. cbn [length] in Hlen.
    replace fuel with (length pre + S (fuel - length pre - 1))%nat by lia.
    unfold collect. cbn [supplier Collectors.to_dict].
    change (cur (of_list (pre ++ x :: post))) with (pre ++ x :: post).
    rewrite (py_for_list_prefix _ pre (x :: post) _ _ _
               (to_dict_body_run key_mapper value_mapper pre ∅ [EvSupplier] Hnd
                  (fun y _ => lookup_empty _))).
    cbn [py_for cnext of_list collect_step accumulator Collectors.to_dict].
    case_decide as Hd.
    + pose proof (to_dict_fold_list_to_map key_mapper value_mapper pre [] Hnd) as Hf.
      change (list_to_map (key_values key_mapper value_mapper []))
        with (∅ : gmap K U) in Hf.
      cbn [app] in Hf. rewrite Hf. by rewrite <- app_assoc.
    + exfalso. apply Hd, to_dict_lookup_some. by left.
Qed.

Lemma to_dict_fails_on_first_duplicate_key_witness :
  fst (collect (Collectors.to_dict (fun x : Z => Z.modulo x 2) (fun x => x))
         (of_list [1; 2]) 3)
  = Some (Ok (list_to_map [(1, 1); (0, 2)]))
  /\ fst (collect (Collectors.to_dict (fun x : Z => Z.modulo x 2) (fun x => x))
         (of_list ([1] ++ 3 :: [2])) 5)
  = Some (Err Collectors.duplicate_key).
Proof.
  destruct (to_dict_fails_on_first_duplicate_key (fun x : Z => Z.modulo x 2) (fun x => x))
    as [Hok Hdup].
  split.
  - rewrite (Hok [1; 2] 3%nat); [reflexivity | | simpl; lia].
    apply (bool_decide_unpack _). vm_compute. reflexivity.
  - rewrite (Hdup [1] 3 [2] 5%nat); [reflexivity | apply NoDup_singleton | | simpl; lia].
    vm_compute. left. reflexivity.
Defined.

(** ** More of [Stream]: [skip], [concat], [peek], [count], the matches *)

Lemma skip_pulls_list {T : Type} (xs : list T) (k : nat) :
  skip_pulls (cnext (of_list xs)) k xs = Ok (drop k xs).
Proof.
  revert k. induction xs as [|x xs IH]; intros [|k]; simpl; first [done | apply IH].
Qed.

(** [skip(n)] on a list iterator discards the first [n] elements, or
    all of them when there are fewer; it never raises, and a negative
    [n] skips nothing. *)
Theorem skip_of_list {T : Type} (xs : list T) (n : Z) :
  stream_skip (of_list xs) n = Ok (of_list (drop (Z.to_nat n) xs)).
Proof.
  unfold stream_skip. change (cur (of_list xs)) with xs.
  rewrite skip_pulls_list. reflexivity.
Qed.

Lemma concat_loop_b {T : Type} (a : cursor T) (ys acc : list T) (fuel : nat) :
  (length ys < fuel)%nat ->
  fst (py_for (cnext (stream_concat a (of_list ys)))
         (fun l x => (l ++ [x], None)) fuel (InB ys) acc)
  = (Done, acc ++ ys).
Proof.
  revert acc fuel.
  induction ys as [|y ys IH]; intros acc fuel Hfuel;
    destruct fuel as [|fuel]; simpl in *; try lia.
  - by rewrite app_nil_r.
  - rewrite IH; [by rewrite <- app_assoc | lia].
Qed.

(** [concat(a, b)] over two list iterators yields the elements of [a]
    and then those of [b]. *)
Theorem concat_of_list {T : Type} (xs ys : list T) (fuel : nat) :
  (length xs + length ys < fuel)%nat ->
  fst (to_list (stream_concat (of_list xs) (of_list ys)) fuel) = (Done, xs ++ ys).
Proof.
  intros Hfuel. unfold to_list. cbn [cur stream_concat of_list].
  enough (H : forall acc, fst (py_for (cnext (stream_concat (of_list xs) (of_list ys)))
                                 (fun l x => (l ++ [x], None)) fuel (InA xs ys) acc)
                          = (Done, acc ++ xs ++ ys)) by apply H.
  revert fuel Hfuel.
  induction xs as [|x xs IH]; intros fuel Hfuel acc;
    destruct fuel as [|fuel]; simpl in Hfuel; try lia.
  - destruct ys as [|y ys]; cbn [py_for cnext stream_concat of_list concat_next_b].
    + by rewrite !app_nil_r.
    + rewrite (concat_loop_b (of_list []) ys); [by rewrite <- app_assoc | simpl in Hfuel; lia].
  - cbn [py_for cnext stream_concat of_list].
    rewrite (IH fuel); [by rewrite <- app_assoc | lia].
Qed.

Lemma concat_of_list_witness :
  fst (to_list (stream_concat (of_list [1]) (of_list [2; 3])) 4) = (Done, [1; 2; 3]).
Proof. apply (concat_of_list [1] [2; 3] 4). simpl. lia. Defined.

Lemma concat_limit_loop {T : Type} (b : cursor T) (l acc : list T) (fuel : nat) :
  (length l < fuel)%nat ->
  py_for (cnext (limit (stream_concat (of_list l) b) (Z.of_nat (length l))))
    (fun r x => (r ++ [x], None)) fuel (length l, InA l (cur b)) acc
  = (Done, acc ++ l, (O, InA [] (cur b))).
Proof.
  revert acc fuel. induction l as [|x l IH]; intros acc fuel Hfuel;
    destruct fuel as [|fuel]; simpl in Hfuel; try lia.
  - simpl. by rewrite app_nil_r.
  - cbn [py_for cnext limit stream_concat of_list length].
    specialize (IH (acc ++ [x]) fuel ltac:(lia)).
    rewrite <- app_assoc in IH. exact IH.
Qed.

(** [concat(a, b)] is lazy in [b]: taking exactly as many elements as
    [a] has ([limit(len(a))]) yields [a]'s elements and never pulls [b],
    whatever [b] is (infinite, raising, ...); [b] is still at its start. *)
Theorem concat_second_untouched {T : Type} (xs : list T) (b : cursor T)
    (fuel : nat) :
  (length xs < fuel)%nat ->
  to_list (limit (stream_concat (of_list xs) b) (Z.of_nat (length xs))) fuel
  = (Done, xs, (O, InA [] (cur b))).
Proof.
  intros Hfuel. unfold to_list.
  change (cur (limit (stream_concat (of_list xs) b) (Z.of_nat (length xs))))
    with (Z.to_nat (Z.of_nat (length xs)), InA xs (cur b)).
  rewrite Nat2Z.id. apply (concat_limit_loop b xs []). exact Hfuel.
Qed.

Lemma concat_second_untouched_witness :
  to_list (limit (stream_concat (of_list [1; 2]) (limit (of_list []) 1)) 2) 3
  = (Done, [1; 2], (O, InA [] (cur (limit (of_list []) 1)))).
Proof. apply (concat_second_untouched [1; 2] (limit (of_list []) 1) 3). simpl. lia. Defined.

Lemma peek_limit_loop {T E : Type} (action : T -> E) (k : nat) (l acc : list T)
    (log : list E) (fuel : nat) :
  (k <= length l)%nat -> (k < fuel)%nat ->
  py_for (cnext (limit (peek action (of_list l)) (Z.of_nat k)))
    (fun r x => (r ++ [x], None)) fuel (k, (l, log)) acc
  = (Done, acc ++ take k l, (O, (drop k l, log ++ map action (take k l)))).
Proof.
  revert l acc log fuel. induction k as [|k IH]; intros l acc log fuel Hk Hfuel;
    destruct fuel as [|fuel]; try lia.
  - simpl. by rewrite !app_nil_r.
  - destruct l as [|x l]; simpl in Hk; [lia|].
    cbn [py_for cnext limit peek of_list].
    rewrite (IH l); [| lia | lia]. cbn [take drop map].
    by rewrite <- !app_assoc.
Qed.

(** [peek(action)] passes the elements through unchanged and runs
    [action] on an element only when it is pulled: behind [limit(k)] on a
    list of at least [k] elements, [action] has run on exactly the first
    [k] elements, in order, and the rest of the list is not read. *)
Theorem peek_runs_on_pulled {T E : Type} (action : T -> E) (xs : list T)
    (k fuel : nat) :
  (k <= length xs)%nat -> (k < fuel)%nat ->
  to_list (limit (peek action (of_list xs)) (Z.of_nat k)) fuel
  = (Done, take k xs, (O, (drop k xs, map action (take k xs)))).
Proof.
  intros Hk Hfuel. unfold to_list.
  change (cur (limit (peek action (of_list xs)) (Z.of_nat k)))
    with (Z.to_nat (Z.of_nat k), (xs, @nil E)).
  rewrite Nat2Z.id. apply (peek_limit_loop action k xs [] [] fuel Hk Hfuel).
Qed.

Lemma peek_runs_on_pulled_witness :
  to_list (limit (peek (fun x => x * 10) (of_list [1; 2; 3])) 2) 3
  = (Done, [1; 2], (O, ([3], [10; 20]))).
Proof. apply (peek_runs_on_pulled (fun x => x * 10) [1; 2; 3] 2 3); simpl; lia. Defined.

(** [count()] on a list iterator is the number of its elements. *)
Theorem count_of_list {T : Type} (xs : list T) (fuel : nat) :
  (length xs < fuel)%nat ->
  stream_count (of_list xs) fuel = Some (Ok (Z.of_nat (length xs))).
Proof.
  intros Hfuel. unfold stream_count. change (cur (of_list xs)) with xs.
  assert (Hrun : forall n, body_run (fun (n : Z) (_ : T) => (n + 1, None)) n xs
                           = Some (n + Z.of_nat (length xs))).
  { clear Hfuel. induction xs as [|x xs IH]; intros n; cbn [body_run length].
    - f_equal. lia.
    - rewrite IH. f_equal. lia. }
  rewrite (py_for_list_done _ xs 0 _ fuel (Hrun 0) Hfuel). reflexivity.
Qed.

Lemma count_of_list_witness :
  stream_count (of_list [PyNone; PyInt 0]) 3 = Some (Ok 2).
Proof. apply (count_of_list [PyNone; PyInt 0] 3). simpl. lia. Defined.

Lemma short_circuit_list {T : Type} (target : bool) (predicate : T -> bool)
    (xs : list T) (fuel : nat) :
  (length xs < fuel)%nat ->
  fst (short_circuit target predicate (cnext (of_list xs)) fuel xs)
  = Some (Ok (if existsb (fun x => Bool.eqb (predicate x) target) xs
              then target else negb target)).
Proof.
  revert fuel. induction xs as [|x xs IH]; intros fuel Hfuel;
    destruct fuel as [|fuel]; simpl in Hfuel; try lia; [done|].
  cbn [short_circuit cnext of_list existsb].
  destruct (Bool.eqb (predicate x) target); [done|]. apply IH. lia.
Qed.

Lemma short_circuit_stops {T : Type} (target : bool) (predicate : T -> bool)
    (pre post : list T) (x : T) (fuel : nat) :
  forallb (fun y => negb (Bool.eqb (predicate y) target)) pre = true ->
  predicate x = target -> (length pre < fuel)%nat ->
  short_circuit target predicate (cnext (of_list (pre ++ x :: post))) fuel
    (pre ++ x :: post)
  = (Some (Ok target), post).
Proof.
  intros Hpre Hx. revert fuel. induction pre as [|y pre IH]; intros fuel Hfuel;
    destruct fuel as [|fuel]; simpl in Hfuel; try lia.
  - cbn. rewrite Hx, Bool.eqb_reflx. done.
  - cbn in Hpre |- *. apply andb_prop in Hpre as [Hy Hpre].
    destruct (Bool.eqb (predicate y) target); [discriminate|].
    apply IH; [exact Hpre | lia].
Qed.

(** [all_match(p)] and [any_match(p)] on a list iterator are the
    conjunction and the disjunction of [p] over the elements; on the
    empty stream they are [True] and [False]. *)
Theorem all_any_match_of_list {T : Type} (p : T -> bool) (xs : list T)
    (fuel : nat) :
  (length xs < fuel)%nat ->
  fst (all_match p (of_list xs) fuel) = Some (Ok (forallb p xs))
  /\ fst (any_match p (of_list xs) fuel) = Some (Ok (existsb p xs)).
Proof.
  intros Hfuel. unfold all_match, any_match. change (cur (of_list xs)) with xs.
  rewrite !short_circuit_list by exact Hfuel. clear Hfuel. split; f_equal; f_equal.
  - induction xs as [|x xs IH]; [done|]. cbn [existsb forallb].
    destruct (p x); simpl; [apply IH | done].
  - induction xs as [|x xs IH]; [done|]. cbn [existsb].
    destruct (p x); simpl; [done | apply IH].
Qed.

Lemma all_any_match_of_list_witness :
  fst (all_match (fun x => 0 <? x) (of_list [1; 2]) 3) = Some (Ok true)
  /\ fst (any_match (fun x => 0 <? x) (of_list [1; 2]) 3) = Some (Ok true).
Proof. apply (all_any_match_of_list (fun x => 0 <? x) [1; 2] 3). simpl. lia. Defined.

(** [all_match(p)] stops at the first element failing [p]: it returns
    [False] and leaves the stream just after that element, so the
    elements after it are never pulled. *)
Theorem all_match_short_circuits {T : Type} (p : T -> bool)
    (pre post : list T) (x : T) (fuel : nat) :
  forallb p pre = true -> p x = false -> (length pre < fuel)%nat ->
  all_match p (of_list (pre ++ x :: post)) fuel = (Some (Ok false), post).
Proof.
  intros Hpre Hx Hfuel. apply short_circuit_stops; [| exact Hx | exact Hfuel].
  apply forallb_forall. intros y Hy.
  pose proof (proj1 (forallb_forall p pre) Hpre y Hy) as Hp. by rewrite Hp.
Qed.

Lemma all_match_short_circuits_witness :
  all_match (fun x => x <? 3) (of_list ([1] ++ 5 :: [2; 9])) 2 = (Some (Ok false), [2; 9]).
Proof. apply (all_match_short_circuits (fun x => x <? 3) [1] [2; 9] 5 2); first [reflexivity | simpl; lia]. Defined.

(** [any_match(p)] stops at the first element satisfying [p]: it
    returns [True] and leaves the stream just after that element. *)
Theorem any_match_short_circuits {T : Type} (p : T -> bool)
    (pre post : list T) (x : T) (fuel : nat) :
  existsb p pre = false -> p x = true -> (length pre < fuel)%nat ->
  any_match p (of_list (pre ++ x :: post)) fuel = (Some (Ok true), post).
Proof.
  intros Hpre Hx Hfuel. apply short_circuit_stops; [| exact Hx | exact Hfuel].
  apply forallb_forall. intros y Hy.
  destruct (p y) eqn:Hp; [|done].
  assert (existsb p pre = true) by (apply existsb_exists; eauto). congruence.
Qed.

Lemma any_match_short_circuits_witness :
  any_match (fun x => 3 <? x) (of_list ([1] ++ 5 :: [2; 9])) 2 = (Some (Ok true), [2; 9]).
Proof. apply (any_match_short_circuits (fun x => 3 <? x) [1] [2; 9] 5 2); first [reflexivity | simpl; lia]. Defined.

(** [none_match()] is [True] exactly when every element is falsy
    ([None], [0] or the empty string). *)
Theorem none_match_of_list (xs : list pyval) (fuel : nat) :
  (length xs < fuel)%nat ->
  none_match (of_list xs) fuel
  = Some (Ok (forallb (fun v => negb (truthy v)) xs)).
Proof.
  intros Hfuel. unfold none_match. change (cur (of_list xs)) with xs.
  rewrite short_circuit_list by exact Hfuel. clear Hfuel. f_equal. f_equal.
  induction xs as [|x xs IH]; [done|]. cbn [existsb forallb].
  destruct (truthy x); simpl; [done | apply IH].
Qed.

Lemma none_match_of_list_witness :
  none_match (of_list [PyNone; PyInt 0; PyStr ""]) 4 = Some (Ok true).
Proof. rewrite (none_match_of_list [PyNone; PyInt 0; PyStr ""] 4); [reflexivity | simpl; lia]. Defined.

(** ** [Stream.range], [iterate], [sum], [reduce_identity] *)

Lemma range_count_step (a b s : Z) (n : nat) :
  0 < s -> Z.to_nat ((b - a + s - 1) / s) = n ->
  match n with
  | O => b <= a
  | S n' => a < b /\ Z.to_nat ((b - (a + s) + s - 1) / s) = n'
  end.
Proof.
  intros Hs Hn. destruct n as [|n].
  - destruct (Z_lt_le_dec a b) as [Hab|Hab]; [|exact Hab].
    assert (1 <= (b - a + s - 1) / s).
    { apply Z.le_trans with (s / s); [rewrite Z.div_same; lia | apply Z.div_le_mono; lia]. }
    lia.
  - assert (Hq : (b - a + s - 1) / s = Z.of_nat (S n)) by lia.
    split.
    + destruct (Z_lt_le_dec a b) as [Hab|Hab]; [exact Hab|].
      assert ((b - a + s - 1) / s < 1) by (apply Z.div_lt_upper_bound; lia).
      lia.
    + replace (b - (a + s) + s - 1) with ((b - a + s - 1) + (-1) * s) by lia.
      rewrite Z.div_add by lia. lia.
Qed.

Lemma range_loop (b s : Z) (n : nat) :
  0 < s ->
  forall (a : Z) (acc : list Z) (fuel : nat),
  Z.to_nat ((b - a + s - 1) / s) = n -> (n < fuel)%nat ->
  fst (py_for (cnext (range_iter 0 b s)) (fun l x => (l ++ [x], None)) fuel a acc)
  = (Done, acc ++ map (fun i => a + Z.of_nat i * s) (seq 0 n)).
Proof.
  intros Hs. induction n as [|n IH]; intros a acc fuel Hn Hfuel;
    destruct fuel as [|fuel]; try lia;
    pose proof (range_count_step a b s _ Hs Hn) as Hst.
  - cbn [py_for cnext range_iter].
    replace (((0 <? s) && (a <? b)) || ((s <? 0) && (b <? a)))%bool with false.
    + by rewrite app_nil_r.
    + symmetry. apply Bool.orb_false_iff. split; apply andb_false_iff.
      * right. apply Z.ltb_ge. exact Hst.
      * left. apply Z.ltb_ge. lia.
  - destruct Hst as [Hab Hn']. cbn [py_for cnext range_iter].
    replace (((0 <? s) && (a <? b)) || ((s <? 0) && (b <? a)))%bool with true.
    + pose proof (IH (a + s) (acc ++ [a]) fuel Hn' ltac:(lia)) as H.
      cbn [cnext range_iter] in H. rewrite H.
      rewrite <- app_assoc. cbn [seq map app]. do 3 f_equal.
      * lia.
      * rewrite <- seq_shift, map_map. apply map_ext. intros i. lia.
    + symmetry. apply Bool.orb_true_iff. left. apply andb_true_iff.
      split; apply Z.ltb_lt; lia.
Qed.

(** [Stream.range(a, b, s)] with a positive step yields
    [a, a+s, a+2s, ...] below [b]: [ceil((b-a)/s)] elements (none when
    [b <= a]). *)
Theorem range_positive_step (a b s : Z) (fuel : nat) :
  0 < s -> (Z.to_nat ((b - a + s - 1) / s) < fuel)%nat ->
  exists c, stream_range a (Some b) (Some s) = Ok c
  /\ fst (to_list c fuel)
     = (Done, map (fun i => a + Z.of_nat i * s) (seq 0 (Z.to_nat ((b - a + s - 1) / s)))).
Proof.
  intros Hs Hfuel. exists (range_iter a b s). split.
  - unfold stream_range. destruct (Z.eqb_spec s 0); [lia | reflexivity].
  - unfold to_list. change (cur (range_iter a b s)) with a.
    change (cnext (range_iter a b s)) with (cnext (range_iter 0 b s)).
    apply (range_loop b s _ Hs a [] fuel eq_refl Hfuel).
Qed.

Lemma range_positive_step_witness :
  exists c, stream_range 1 (Some 8) (Some 3) = Ok c
  /\ fst (to_list c 4) = (Done, map (fun i => 1 + Z.of_nat i * 3) (seq 0 (Z.to_nat ((8 - 1 + 3 - 1) / 3)))).
Proof. apply (range_positive_step 1 8 3 4); [lia | vm_compute; lia]. Defined.

(** [Stream.range(n)] yields [0, 1, ..., n-1] (nothing when [n <= 0]),
    and when [stop] is omitted a given [step] is ignored; with a [stop],
    a zero [step] raises [ValueError] at the call. *)
Theorem range_one_argument (n : Z) (step : option Z) (b : Z) (fuel : nat) :
  (Z.to_nat n < fuel)%nat ->
  stream_range n None step = Ok (range_iter 0 n 1)
  /\ fst (to_list (range_iter 0 n 1) fuel)
     = (Done, map Z.of_nat (seq 0 (Z.to_nat n)))
  /\ stream_range n (Some b) (Some 0) = Err range_zero_step.
Proof.
  intros Hfuel. split; [reflexivity|]. split; [|reflexivity].
  unfold to_list. change (cur (range_iter 0 n 1)) with 0.
  replace ((n - 0 + 1 - 1) / 1) with n in * by (rewrite Z.div_1_r; lia).
  rewrite (range_loop n 1 (Z.to_nat n) ltac:(lia) 0 [] fuel); [| | exact Hfuel].
  - cbn [app]. rewrite (map_ext (fun i : nat => 0 + Z.of_nat i * 1) Z.of_nat);
      [reflexivity | intros i; lia].
  - replace ((n - 0 + 1 - 1) / 1) with n by (rewrite Z.div_1_r; lia). reflexivity.
Qed.

Lemma range_one_argument_witness :
  stream_range 3 None (Some 2) = Ok (range_iter 0 3 1)
  /\ fst (to_list (range_iter 0 3 1) 4) = (Done, map Z.of_nat (seq 0 (Z.to_nat 3)))
  /\ stream_range 3 (Some 5) (Some 0) = Err range_zero_step.
Proof. apply (range_one_argument 3 (Some 2) 5 4). vm_compute. lia. Defined.

Lemma iterate_limit_loop {T : Type} (seed : T) (f : T -> T) (k : nat) :
  forall (x : T) (acc : list T) (fuel : nat), (k < fuel)%nat ->
  fst (py_for (cnext (limit (iterate seed f) 0))
         (fun l y => (l ++ [y], None)) fuel (k, Some x) acc)
  = (Done, acc ++ map (fun j => Nat.iter (S j) f x) (seq 0 k)).
Proof.
  induction k as [|k IH]; intros x acc fuel Hfuel; destruct fuel as [|fuel]; try lia.
  - simpl. by rewrite app_nil_r.
  - change (py_for (cnext (limit (iterate seed f) 0)) (fun l y => (l ++ [y], None))
              (S fuel) (S k, Some x) acc)
      with (py_for (cnext (limit (iterate seed f) 0)) (fun l y => (l ++ [y], None))
              fuel (k, Some (f x)) (acc ++ [f x])).
    rewrite (IH (f x) (acc ++ [f x]) fuel ltac:(lia)), <- app_assoc.
    cbn [seq map app]. f_equal. f_equal. f_equal.
    rewrite <- seq_shift, map_map. apply map_ext. intros j.
    symmetry. apply (Nat.iter_succ_r (S j)).
Qed.

(** [iterate(seed, f).limit(n).to_list()] is [[seed, f(seed), ...,
    f^(n-1)(seed)]]. *)
Theorem iterate_limit_general {T : Type} (seed : T) (f : T -> T) (n fuel : nat) :
  (n < fuel)%nat ->
  fst (to_list (limit (iterate seed f) (Z.of_nat n)) fuel)
  = (Done, map (fun k => Nat.iter k f seed) (seq 0 n)).
Proof.
  intros Hfuel. unfold to_list.
  change (cur (limit (iterate seed f) (Z.of_nat n))) with (Z.to_nat (Z.of_nat n), @None T).
  change (cnext (limit (iterate seed f) (Z.of_nat n)))
    with (cnext (limit (iterate seed f) 0)).
  rewrite Nat2Z.id. destruct fuel as [|fuel]; [lia|].
  destruct n as [|n]; [reflexivity|].
  change (py_for (cnext (limit (iterate seed f) 0)) (fun l y => (l ++ [y], None))
            (S fuel) (S n, None) [])
    with (py_for (cnext (limit (iterate seed f) 0)) (fun l y => (l ++ [y], None))
            fuel (n, Some seed) [seed]).
  transitivity (Done, [seed] ++ map (fun j => Nat.iter (S j) f seed) (seq 0 n)).
  { apply (iterate_limit_loop seed f n seed [seed] fuel). lia. }
  cbn [seq map app Nat.iter]. do 2 f_equal.
  rewrite <- seq_shift, map_map. reflexivity.
Qed.

Lemma iterate_limit_general_witness :
  fst (to_list (limit (iterate 3 (fun x => x + 4)) (Z.of_nat 3)) 4)
  = (Done, map (fun k => Nat.iter k (fun x => x + 4) 3) (seq 0 3)).
Proof. apply (iterate_limit_general 3 (fun x => x + 4) 3 4). lia. Defined.

(** [sum()] adds the elements with [+]: a non-empty stream of integers
    gives their sum and one of strings their concatenation, while the
    empty stream gives [None], not [0]. *)
Theorem sum_of_list (zs : list Z) (ss : list string) (fuel : nat) :
  (length zs < fuel)%nat -> (length ss < fuel)%nat ->
  stream_sum (of_list (map PyInt zs)) fuel
  = Some (Ok (match zs with [] => PyNone | _ => PyInt (fold_right Z.add 0 zs) end))
  /\ stream_sum (of_list (map PyStr ss)) fuel
  = Some (Ok (match ss with [] => PyNone | _ => PyStr (String.concat "" ss) end)).
Proof.
  intros Hz Hs. split.
  - destruct zs as [|z zs]; [reflexivity|].
    change (stream_sum (of_list (map PyInt (z :: zs))) fuel)
      with (loop_result (py_for (cnext (of_list (map PyInt zs))) (reduce_step py_add)
                           fuel (map PyInt zs) (PyInt z))).
    assert (Hrun : forall a, body_run (reduce_step py_add) (PyInt a) (map PyInt zs)
                             = Some (PyInt (a + fold_right Z.add 0 zs))).
    { clear Hz. induction zs as [|z' zs IH]; intros a; cbn [body_run map fold_right].
      - f_equal. f_equal. lia.
      - cbn [reduce_step py_add]. rewrite IH. f_equal. f_equal. lia. }
    rewrite (py_for_list_done _ _ _ _ fuel (Hrun z)); [reflexivity|].
    rewrite length_map. simpl in Hz. lia.
  - destruct ss as [|s ss]; [reflexivity|].
    change (stream_sum (of_list (map PyStr (s :: ss))) fuel)
      with (loop_result (py_for (cnext (of_list (map PyStr ss))) (reduce_step py_add)
                           fuel (map PyStr ss) (PyStr s))).
    assert (Hrun : forall a, body_run (reduce_step py_add) (PyStr a) (map PyStr ss)
                             = Some (PyStr (a ++ String.concat "" ss))).
    { clear Hs. induction ss as [|s' ss IH]; intros a; cbn [body_run map].
      - by rewrite string_append_nil_r.
      - cbn [reduce_step py_add]. rewrite IH, string_concat_empty_cons.
        by rewrite string_append_assoc. }
    rewrite (py_for_list_done _ _ _ _ fuel (Hrun s)); [|rewrite length_map; simpl in Hs; lia].
    by rewrite string_concat_empty_cons.
Qed.

Lemma sum_of_list_witness :
  stream_sum (of_list (map PyInt [1; 2; 3])) 4 = Some (Ok (PyInt 6))
  /\ stream_sum (of_list (map PyStr ["a"; "b"])) 4 = Some (Ok (PyStr "ab")).
Proof.
  destruct (sum_of_list [1; 2; 3] ["a"; "b"]%string 4) as [H1 H2]; [simpl; lia | simpl; lia |].
  rewrite H1, H2. split; reflexivity.
Defined.

(** [reduce_identity(identity, op)] is the left fold of [op] seeded
    with [identity]; on the empty stream it returns [identity]. *)
Theorem reduce_identity_fold {T U : Type} (op : U -> T -> U) (identity : U)
    (xs : list T) (fuel : nat) :
  (length xs < fuel)%nat ->
  reduce_identity (of_list xs) identity (fun a x => Ok (op a x)) fuel
  = Some (Ok (fold_left op xs identity)).
Proof.
  intros Hfuel. unfold reduce_identity. change (cur (of_list xs)) with xs.
  rewrite (py_for_list_done _ xs identity (fold_left op xs identity) fuel);
    [reflexivity | | exact Hfuel].
  by apply body_run_total.
Qed.

Lemma reduce_identity_fold_witness :
  reduce_identity (of_list [1; 2; 3]) 10 (fun a x => Ok (a * x)) 4 = Some (Ok 60).
Proof. rewrite (reduce_identity_fold (fun a x => a * x) 10 [1; 2; 3] 4); [reflexivity | simpl; lia]. Defined.

(** ** More collectors *)

(** [collecting_and_then(d, g)] makes exactly the supplier and
    accumulator calls of [d] on any iterator, and its result is [g]
    applied to [d]'s result (an exception of [d] passes through). *)
Theorem collecting_and_then_result {T A R RR : Type} (d : collector T A R)
    (g : R -> res RR) (c : cursor T) (fuel : nat) :
  fst (collect (Collectors.collecting_and_then d g) c fuel)
  = option_map (fun r => match r with Ok x => g x | Err e => Err e end)
      (fst (collect d c fuel))
  /\ snd (collect (Collectors.collecting_and_then d g) c fuel)
     = snd (collect d c fuel).
Proof.
  unfold collect. cbn [supplier Collectors.collecting_and_then].
  destruct (supplier d tt) as [a|e]; [|done].
  change (collect_step (Collectors.collecting_and_then d g)) with (collect_step d).
  destruct (py_for (cnext c) (collect_step d) fuel (cur c) (a, [EvSupplier]))
    as [[[| e |] [acc log]] s]; done.
Qed.

Lemma mapping_loop {T U A R : Type} (f : T -> U) (d : collector U A R)
    (c : cursor T) (fuel : nat) :
  forall (s : cst c) (a : A) (log1 : list (event T A)) (log2 : list (event U A)),
  let r1 := py_for (cnext c) (collect_step (Collectors.mapping f d)) fuel s (a, log1) in
  let r2 := py_for (cnext (stream_map f c)) (collect_step d) fuel s (a, log2) in
  fst (fst r1) = fst (fst r2) /\ fst (snd (fst r1)) = fst (snd (fst r2)).
Proof.
  induction fuel as [|fuel IH]; intros s a log1 log2; [done|].
  cbn [py_for cnext stream_map].
  destruct (cnext c s) as [x s'| |e]; [|done|done].
  cbn [collect_step accumulator Collectors.mapping].
  destruct (accumulator d a (f x)) as [a'|e]; [apply IH | done].
Qed.

(** [mapping(f, d)] collects what [d] collects from the stream mapped by
    [f]: [s.collect(mapping(f, d)) == s.map(f).collect(d)], on any
    iterator. *)
Theorem mapping_is_map_then_collect {T U A R : Type} (f : T -> U)
    (d : collector U A R) (c : cursor T) (fuel : nat) :
  fst (collect (Collectors.mapping f d) c fuel) = fst (collect d (stream_map f c) fuel).
Proof.
  unfold collect. cbn [supplier Collectors.mapping].
  destruct (supplier d tt) as [a|e]; [|done].
  destruct (mapping_loop f d c fuel (cur c) a [EvSupplier] [EvSupplier]) as [He Ha].
  change (cur (stream_map f c)) with (cur c).
  destruct (py_for (cnext c) (collect_step (Collectors.mapping f d)) fuel (cur c)
              (a, [EvSupplier])) as [[e1 [a1 l1]] s1].
  destruct (py_for (cnext (stream_map f c)) (collect_step d) fuel (cur c)
              (a, [EvSupplier])) as [[e2 [a2 l2]] s2].
  cbn in He, Ha. subst. cbn [finisher Collectors.mapping]. by destruct e2.
Qed.

Lemma grouping_fold {T K : Type} `{Countable K} (cl : T -> K) (k : K) (xs : list T) :
  forall m : gmap K (list T),
  fold_left (fun result value =>
               <[cl value := default [] (result !! cl value) ++ [value]]> result) xs m !! k
  = match m !! k, filter (fun x => cl x = k) xs with
    | None, [] => None
    | o, l => Some (default [] o ++ l)
    end.
Proof.
  induction xs as [|x xs IH]; intros m; cbn [fold_left].
  - destruct (m !! k); [by rewrite app_nil_r | done].
  - rewrite IH. destruct (decide (cl x = k)) as [<-|Hne].
    + rewrite lookup_insert_eq, filter_cons_True by done.
      destruct (m !! cl x); cbv [default from_option id]; cbn iota beta;
        rewrite <- ?app_assoc; reflexivity.
    + rewrite lookup_insert_ne by done. rewrite filter_cons_False by done. done.
Qed.

(** [grouping_by(classifier)] maps each key to the elements classified
    under it, in encounter order; a key no element has is absent (not
    mapped to an empty list). *)
Theorem grouping_by_groups {T K : Type} `{Countable K} (cl : T -> K)
    (xs : list T) (fuel : nat) :
  (length xs < fuel)%nat ->
  exists m, fst (collect (Collectors.grouping_by cl) (of_list xs) fuel) = Some (Ok m)
  /\ forall k, m !! k = match filter (fun x => cl x = k) xs with
                        | [] => None
                        | l => Some l
                        end.
Proof.
  intros Hfuel.
  set (acc := fun (result : gmap K (list T)) value =>
               <[cl value := default [] (result !! cl value) ++ [value]]> result).
  rewrite (collect_run_total _ ∅ acc (fun m => m) xs fuel); [| done | done | done | exact Hfuel].
  eexists. split; [reflexivity|]. intros k. subst acc.
  rewrite grouping_fold, lookup_empty. by destruct (filter _ xs).
Qed.

Lemma grouping_by_groups_witness :
  exists m, fst (collect (Collectors.grouping_by (fun x : Z => Z.modulo x 2))
                   (of_list [1; 2; 3]) 4) = Some (Ok m)
  /\ forall k, m !! k = match filter (fun x => Z.modulo x 2 = k) [1; 2; 3] with
                        | [] => None
                        | l => Some l
                        end.
Proof. apply (grouping_by_groups (fun x : Z => Z.modulo x 2) [1; 2; 3] 4). simpl. lia. Defined.

Lemma partition_fold {T : Type} (p : T -> bool) (xs : list T) :
  forall l0 l1,
  fold_left (Collectors.partition_append p) xs (l0, l1)
  = (l0 ++ List.filter (fun x => negb (p x)) xs, l1 ++ List.filter p xs).
Proof.
  induction xs as [|x xs IH]; intros l0 l1; cbn [fold_left List.filter].
  - by rewrite !app_nil_r.
  - unfold Collectors.partition_append at 2. destruct (p x); cbn [negb];
      rewrite IH; by rewrite <- app_assoc.
Qed.

(** [partition(p)] returns the pair (elements failing [p], elements
    satisfying [p]), each in encounter order: index [0] is the [False]
    bucket. *)
Theorem partition_buckets {T : Type} (p : T -> bool) (xs : list T) (fuel : nat) :
  (length xs < fuel)%nat ->
  fst (collect (Collectors.partition p) (of_list xs) fuel)
  = Some (Ok (List.filter (fun x => negb (p x)) xs, List.filter p xs)).
Proof.
  intros Hfuel.
  rewrite (collect_run_total _ ([], []) (Collectors.partition_append p) (fun r => r) xs fuel);
    [| done | done | done | exact Hfuel].
  cbn [fst]. by rewrite partition_fold.
Qed.

Lemma partition_buckets_witness :
  fst (collect (Collectors.partition (fun x => 2 <? x)) (of_list [1; 3; 2; 4]) 5)
  = Some (Ok ([1; 2], [3; 4])).
Proof.
  rewrite (partition_buckets (fun x => 2 <? x) [1; 3; 2; 4] 5); [reflexivity | simpl; lia].
Defined.

Lemma collect_list_total {T A D : Type} (sup : A) (acc : A -> T -> A) (fin : A -> D)
    (l : list T) :
  Collectors.collect_list (pure_collector sup acc fin) l = Ok (fin (fold_left acc l sup)).
Proof.
  unfold Collectors.collect_list.
  rewrite (collect_run_total _ sup acc fin l (S (length l))); [done | done | done | done | lia].
Qed.

(** [partition_downstream(p, d)] runs [d] separately on each bucket: for
    a downstream whose methods return, the result is the pair of [d]'s
    results on the failing and on the satisfying elements. *)
Theorem partition_downstream_buckets {T A D : Type} (p : T -> bool) (sup : A)
    (acc : A -> T -> A) (fin : A -> D) (xs : list T) (fuel : nat) :
  (length xs < fuel)%nat ->
  fst (collect (Collectors.partition_downstream p (pure_collector sup acc fin))
         (of_list xs) fuel)
  = Some (Ok (fin (fold_left acc (List.filter (fun x => negb (p x)) xs) sup),
              fin (fold_left acc (List.filter p xs) sup))).
Proof.
  intros Hfuel.
  rewrite (collect_run_total _ ([], []) (Collectors.partition_append p)
             (fun r => (fin (fold_left acc (fst r) sup), fin (fold_left acc (snd r) sup)))
             xs fuel); [| done | done | | exact Hfuel].
  - cbn [fst]. by rewrite partition_fold.
  - intros [l0 l1]. cbn [finisher Collectors.partition_downstream fst snd].
    by rewrite !collect_list_total.
Qed.

Lemma partition_downstream_buckets_witness :
  fst (collect (Collectors.partition_downstream (fun x => 2 <? x)
                  (pure_collector 0 Z.add (fun a => a)))
         (of_list [1; 3; 2; 4]) 5)
  = Some (Ok (3, 7)).
Proof.
  rewrite (partition_downstream_buckets (fun x => 2 <? x) 0 Z.add (fun a => a)
             [1; 3; 2; 4] 5); [reflexivity | simpl; lia].
Defined.

(** [reducing_mapper(identity, mapper, op)] is the left fold of [op]
    over the mapped elements seeded with [identity], and
    [reducing_identity(identity, op)] the one over the elements: the
    empty stream gives [identity], never an absent result. *)
Theorem reducing_mapper_fold {T U : Type} (identity : U) (mapper : T -> U)
    (op : U -> U -> U) (xs : list T) (ys : list U) (fuel : nat) :
  (length xs < fuel)%nat -> (length ys < fuel)%nat ->
  fst (collect (Collectors.reducing_mapper identity mapper (fun a b => Ok (op a b)))
         (of_list xs) fuel)
  = Some (Ok (fold_left (fun a x => op a (mapper x)) xs identity))
  /\ fst (collect (Collectors.reducing_identity identity (fun a b => Ok (op a b)))
            (of_list ys) fuel)
  = Some (Ok (fold_left op ys identity)).
Proof.
  intros Hx Hy. split.
  - by rewrite (collect_run_total _ identity (fun a x => op a (mapper x)) (fun a => a) xs fuel).
  - by rewrite (collect_run_total _ identity op (fun a => a) ys fuel).
Qed.

Lemma reducing_mapper_fold_witness :
  fst (collect (Collectors.reducing_mapper 0 (fun x => x * x) (fun a b => Ok (a + b)))
         (of_list [1; 2; 3]) 4) = Some (Ok 14)
  /\ fst (collect (Collectors.reducing_identity 1 (fun a b => Ok (a * b)))
            (of_list [1; 2; 3; 4]) 5) = Some (Ok 24).
Proof.
  destruct (reducing_mapper_fold 0 (fun x => x * x) Z.add [1; 2; 3] [] 4) as [H1 _];
    [simpl; lia | simpl; lia |].
  destruct (reducing_mapper_fold 1 (fun x : Z => x) Z.mul [] [1; 2; 3; 4] 5) as [_ H2];
    [simpl; lia | simpl; lia |].
  rewrite H1, H2. split; reflexivity.
Defined.

(** [to_list()] collects the elements in order, and [to_set()] collects
    exactly the elements that occur. *)
Theorem to_list_to_set_collect {T : Type} `{Countable T} (xs : list T) (fuel : nat) :
  (length xs < fuel)%nat ->
  fst (collect Collectors.to_list (of_list xs) fuel) = Some (Ok xs)
  /\ exists s, fst (collect Collectors.to_set (of_list xs) fuel) = Some (Ok s)
     /\ forall x, x ∈ s <-> In x xs.
Proof.
  intros Hfuel. split.
  - rewrite (collect_run_total _ [] (fun r v => r ++ [v]) (fun r => r) xs fuel);
      [| done | done | done | exact Hfuel].
    cbn [fst]. by rewrite fold_left_append_value.
  - rewrite (collect_run_total _ ∅ (fun r v => {[v]} ∪ r) (fun r => r) xs fuel);
      [| done | done | done | exact Hfuel].
    eexists. split; [reflexivity|]. intros x.
    assert (Hfold : forall s0 : gset T,
               x ∈ fold_left (fun r v => {[v]} ∪ r) xs s0 <-> x ∈ s0 \/ In x xs).
    { clear Hfuel. induction xs as [|y xs IH]; intros s0; cbn [fold_left In].
      - tauto.
      - rewrite IH. set_solver. }
    rewrite Hfold. set_solver.
Qed.

Lemma to_list_to_set_collect_witness :
  fst (collect Collectors.to_list (of_list [2; 1; 2]) 4) = Some (Ok [2; 1; 2])
  /\ exists s, fst (collect Collectors.to_set (of_list [2; 1; 2]) 4) = Some (Ok s)
     /\ forall x, x ∈ s <-> In x [2; 1; 2].
Proof. apply (to_list_to_set_collect [2; 1; 2] 4). simpl. lia. Defined.

(** ** Stages over a list source, [is_prime] *)

(** A loop's outcome and world depend on the state only through its
    first [__next__]. *)
Lemma py_for_fst_next {St T B : Type} (nxt : St -> step St T)
    (body : B -> T -> B * option exn) (fuel : nat) (s s' : St) (b : B) :
  nxt s = nxt s' ->
  fst (py_for nxt body fuel s b) = fst (py_for nxt body fuel s' b).
Proof.
  intros Hs. destruct fuel as [|fuel]; [done|]. cbn [py_for]. rewrite Hs.
  by destruct (nxt s') as [x s''| |e].
Qed.

Lemma short_circuit_fst_next {St T : Type} (target : bool) (predicate : T -> bool)
    (nxt : St -> step St T) (fuel : nat) (s s' : St) :
  nxt s = nxt s' ->
  fst (short_circuit target predicate nxt fuel s)
  = fst (short_circuit target predicate nxt fuel s').
Proof.
  intros Hs. destruct fuel as [|fuel]; [done|]. cbn [short_circuit]. rewrite Hs.
  by destruct (nxt s') as [x s''| |e].
Qed.

Lemma filter_loop {T : Type} (p : T -> bool) (l acc : list T) (fuel : nat) :
  (length l < fuel)%nat ->
  fst (py_for (filter_next p) (fun r x => (r ++ [x], None)) fuel l acc)
  = (Done, acc ++ List.filter p l).
Proof.
  revert acc fuel. induction l as [|x l IH]; intros acc fuel Hfuel;
    destruct fuel as [|fuel]; simpl in Hfuel; try lia.
  - simpl. by rewrite app_nil_r.
  - destruct (p x) eqn:Hp.
    + cbn [py_for filter_next List.filter]. rewrite Hp.
      rewrite IH by lia. by rewrite <- app_assoc.
    + rewrite (py_for_fst_next _ _ _ (x :: l) l); [| by cbn; rewrite Hp].
      cbn [List.filter]. rewrite Hp. apply IH. lia.
Qed.

(** [Stream(xs).filter(p)] yields the elements satisfying [p], in
    order; in particular [filter(p).all_match(p)] is [True]. *)
Theorem filter_of_list {T : Type} (p : T -> bool) (xs : list T) (fuel : nat) :
  (length xs < fuel)%nat ->
  fst (to_list (filter_list p xs) fuel) = (Done, List.filter p xs)
  /\ fst (all_match p (filter_list p xs) fuel) = Some (Ok true).
Proof.
  intros Hfuel. split.
  - apply (filter_loop p xs [] fuel Hfuel).
  - unfold all_match. change (cur (filter_list p xs)) with xs.
    change (cnext (filter_list p xs)) with (filter_next p).
    revert fuel Hfuel. induction xs as [|x xs IH]; intros fuel Hfuel;
      destruct fuel as [|fuel]; simpl in Hfuel; try lia; [done|].
    destruct (p x) eqn:Hp.
    + cbn [short_circuit filter_next]. rewrite Hp. cbn. rewrite Hp. apply IH. lia.
    + rewrite (short_circuit_fst_next _ _ _ _ (x :: xs) xs); [apply IH; lia|].
      by cbn; rewrite Hp.
Qed.

Lemma filter_of_list_witness :
  fst (to_list (filter_list (fun x => Z.even x) [1; 2; 3; 4]) 5) = (Done, [2; 4])
  /\ fst (all_match (fun x => Z.even x) (filter_list (fun x => Z.even x) [1; 2; 3; 4]) 5)
     = Some (Ok true).
Proof. apply (filter_of_list (fun x => Z.even x) [1; 2; 3; 4] 5). simpl. lia. Defined.

Lemma flat_map_loop {T R : Type} (f : T -> list R) (outer : list T) :
  forall (inner acc : list R) (fuel : nat),
  (length (inner ++ List.flat_map f outer) < fuel)%nat ->
  fst (py_for (cnext (flat_map_list f [])) (fun r x => (r ++ [x], None)) fuel
         (outer, inner) acc)
  = (Done, acc ++ inner ++ List.flat_map f outer).
Proof.
  induction outer as [|v outer IHo]; intros inner.
  - induction inner as [|y inner IHi]; intros acc fuel Hfuel;
      destruct fuel as [|fuel]; simpl in Hfuel; try lia.
    + simpl. by rewrite app_nil_r.
    + cbn [py_for cnext flat_map_list]. rewrite IHi by (simpl; lia).
      by rewrite <- app_assoc.
  - induction inner as [|y inner IHi]; intros acc fuel Hfuel.
    + cbn [app List.flat_map] in Hfuel |- *.
      destruct (f v) as [|y rest] eqn:Hf.
      * etransitivity; [apply (py_for_fst_next _ _ _ _ (outer, [])); by cbn; rewrite Hf|].
        apply IHo. exact Hfuel.
      * etransitivity;
          [apply (py_for_fst_next _ _ _ _ (outer, y :: rest)); by cbn; rewrite Hf|].
        rewrite IHo by exact Hfuel. reflexivity.
    + destruct fuel as [|fuel]; simpl in Hfuel; [lia|].
      cbn [py_for cnext flat_map_list]. rewrite IHi by (simpl; lia).
      by rewrite <- app_assoc.
Qed.

(** [Stream(xs).flat_map(f)] yields the elements of [f(x1)], then those
    of [f(x2)], ..., skipping the empty ones. *)
Theorem flat_map_of_list {T R : Type} (f : T -> list R) (xs : list T) (fuel : nat) :
  (length (List.flat_map f xs) < fuel)%nat ->
  fst (to_list (flat_map_list f xs) fuel) = (Done, List.flat_map f xs).
Proof.
  intros Hfuel. apply (flat_map_loop f xs [] [] fuel Hfuel).
Qed.

Lemma flat_map_of_list_witness :
  fst (to_list (flat_map_list (fun n => repeat n (Z.to_nat n)) [2; 0; 1]) 4)
  = (Done, [2; 2; 1]).
Proof. apply (flat_map_of_list (fun n => repeat n (Z.to_nat n)) [2; 0; 1] 4). simpl. lia. Defined.




Lemma factor_search (i : Z) (n : nat) :
  forall (a : Z) (fuel : nat),
  Z.to_nat (i - a) = n -> (n < fuel)%nat -> 2 <= a ->
  exists r, filter_pull (fun x => Z.eqb (Z.modulo i x) 0) (cnext (range_iter 2 i 1))
              fuel a = Some r
  /\ match r with
     | Stop => forall x, a <= x < i -> Z.modulo i x <> 0
     | Yield x _ => a <= x < i /\ Z.modulo i x = 0
     | Raise _ => False
     end.
Proof.
  induction n as [|n IH]; intros a fuel Hn Hfuel Ha; destruct fuel as [|fuel]; try lia;
    cbn [filter_pull cnext range_iter Z.ltb Z.compare andb orb];
    destruct (Z.ltb_spec a i) as [Hai|Hai]; cbn [andb orb].
  - lia.
  - eexists. split; [reflexivity|]. intros x Hx. lia.
  - destruct (Z.eqb_spec (Z.modulo i a) 0) as [H0|H0].
    + eexists. split; [reflexivity|]. split; [lia | exact H0].
    + destruct (IH (a + 1) fuel ltac:(lia) ltac:(lia) ltac:(lia)) as [r [Hr Hprop]].
      exists r. split; [exact Hr|]. destruct r as [x s| |e]; [lia| |done].
      intros x Hx. destruct (Z.eq_dec x a) as [->|Hxa]; [exact H0|]. apply Hprop. lia.
  - eexists. split; [reflexivity|]. intros x Hx. lia.
Qed.

(** [is_prime(i)] of [__main__.py] is [True] exactly when [i] is prime
    or [i <= 1]: [range(2, i)] is empty there, so [1], [0] and negative
    numbers count as prime (and [print_primes] lists [1]). *)
Theorem is_prime_correct (i : Z) (fuel : nat) :
  (Z.to_nat i < fuel)%nat ->
  exists b, is_prime i fuel = Some (Ok b) /\ (b = true <-> i <= 1 \/ prime i).
Proof.
  intros Hfuel. unfold is_prime, stream_range. cbv beta iota.
  change (cur (range_iter 2 i 1)) with 2.
  destruct (factor_search i (Z.to_nat (i - 2)) 2 fuel eq_refl ltac:(lia) ltac:(lia))
    as [r [Hr Hprop]].
  rewrite Hr. destruct r as [x s| |e]; [| |done].
  - exists false. split; [reflexivity|]. split; [discriminate|].
    intros [Hle|Hp]; [lia|]. apply prime_alt in Hp as [_ Hp].
    exfalso. apply (Hp x); [lia|]. apply Z.mod_divide; [lia | apply Hprop].
  - exists true. split; [reflexivity|]. split; [intros _|done].
    destruct (Z_le_gt_dec i 1) as [Hle|Hgt]; [by left|right].
    apply prime_alt. split; [lia|]. intros x Hx Hdiv.
    apply (Hprop x); [lia|]. apply Z.mod_divide; [lia | exact Hdiv].
Qed.

Lemma is_prime_correct_witness :
  exists b, is_prime 7 8 = Some (Ok b) /\ (b = true <-> 7 <= 1 \/ prime 7).
Proof. apply (is_prime_correct 7 8). vm_compute. lia. Defined.
